(** * RegInfo monitor: change detection and snapshot retention

    A shallow embedding of [rin_monitor_cli.py] (class [RINMonitor]) and the
    properties of its normalizer, fingerprinter, snapshot store, differ and
    change detector.

    Conventions of the embedding.
    - A Python [str] is a [string]; a character is the code point below 256
      that the [ascii] encodes.
    - The file system under [data_dir] is a finite map from the tracked
      identifier to the directory [data_dir / rin]; a directory is the list
      of its entries.
    - Library functions that the program calls but does not define
      ([hashlib.md5], [difflib.unified_diff], the directory listing order of
      [Path.glob]) are parameters of the development. *)

From Stdlib Require Import ZArith Lia Bool Ascii String DecimalString List.
From Stdlib Require OrderedTypeEx.
From stdpp Require Import base option list sorting gmap strings.

Local Open Scope string_scope.
Local Open Scope Z_scope.

(** ** Characters and regular-expression primitives *)

Module Text.

Definition code (c : ascii) : N := N_of_ascii c.

(** [\s] of a [str] pattern: the code points for which [str.isspace] holds. *)
Definition is_space (c : ascii) : bool :=
  let n := code c in
  ((9 <=? n) && (n <=? 13) || (28 <=? n) && (n <=? 32)
   || (n =? 133) || (n =? 160))%N.

(** [\d]: decimal digits. *)
Definition is_digit (c : ascii) : bool :=
  let n := code c in ((48 <=? n) && (n <=? 57))%N.

(** The class of the double and the single quote, and its complement. *)
Definition is_quote (c : ascii) : bool :=
  let n := code c in ((n =? 34) || (n =? 39))%N.

Definition not_quote (c : ascii) : bool := negb (is_quote c).

(** [str.lower] on one character. *)
Definition lower (c : ascii) : ascii :=
  let n := code c in
  if ((65 <=? n) && (n <=? 90))%N then ascii_of_N (n + 32)
  else if ((192 <=? n) && (n <=? 222) && negb (n =? 215))%N
       then ascii_of_N (n + 32)
  else c.

Fixpoint lower_str (s : string) : string :=
  match s with
  | EmptyString => EmptyString
  | String c s' => String (lower c) (lower_str s')
  end.

Fixpoint drop (n : nat) (s : string) : string :=
  match n, s with
  | O, _ => s
  | S n', EmptyString => EmptyString
  | S n', String _ s' => drop n' s'
  end.

Fixpoint take (n : nat) (s : string) : string :=
  match n, s with
  | O, _ => EmptyString
  | S n', EmptyString => EmptyString
  | S n', String c s' => String c (take n' s')
  end.

(** Length of the longest prefix whose characters all satisfy [p]: what a
    greedy [p*] consumes. *)
Fixpoint span_len (p : ascii -> bool) (s : string) : nat :=
  match s with
  | String c s' => if p c then S (span_len p s') else O
  | EmptyString => O
  end.

(** A literal at the head of [s]; with [ci] the comparison is the one of
    [re.IGNORECASE] (the literal is given in lower case).  Returns the rest
    of [s]. *)
Fixpoint lit (ci : bool) (pat s : string) : option string :=
  match pat with
  | EmptyString => Some s
  | String p pat' =>
      match s with
      | EmptyString => None
      | String c s' =>
          if Ascii.eqb (if ci then lower c else c) p
          then lit ci pat' s' else None
      end
  end.

(** [needle in s]. *)
Fixpoint contains (needle s : string) : bool :=
  String.prefix needle s ||
  match s with
  | EmptyString => false
  | String _ s' => contains needle s'
  end.

(** Index of the first occurrence of [needle] in [s]. *)
Fixpoint find (needle s : string) : option nat :=
  if String.prefix needle s then Some O
  else match s with
       | EmptyString => None
       | String _ s' => option_map S (find needle s')
       end.

End Text.

(** ** Regular expressions with an empty replacement

    A pattern is embedded as the function that, given the text from the
    current position on, answers the length of the match that starts at this
    position, if there is one.  Each pattern of the normalizer has at most one
    way to match at a position (see the comments at the patterns), so
    backtracking never yields a second candidate. *)

Module Re.

Definition pattern := string -> option nat.

(** [re.sub(p, '', s)]: scan from the left; where the pattern matches, drop
    the match and resume right after it; otherwise keep the character.
    [skip] counts the characters of the current match still to be dropped. *)
Fixpoint sub_from (p : pattern) (skip : nat) (s : string) : string :=
  match s with
  | EmptyString => EmptyString
  | String c s' =>
      match skip with
      | S k => sub_from p k s'
      | O =>
          match p s with
          | Some (S k) => sub_from p k s'
          | _ => String c (sub_from p O s')
          end
      end
  end.

Definition sub (p : pattern) (s : string) : string := sub_from p O s.

(** Does [p] match at the head of [s] (with a non-empty match)? *)
Definition matches_here (p : pattern) (s : string) : bool :=
  match p s with Some (S _) => true | _ => false end.

(** [re.search(p, s) is not None]. *)
Fixpoint has_match (p : pattern) (s : string) : bool :=
  match s with
  | EmptyString => false
  | String _ s' => matches_here p s || has_match p s'
  end.

(** The pattern [\s+NAME=Q[^Q]*Q], where [Q] stands for the class of the two
    quote characters.  [\s+] is greedy and [NAME] starts with a letter, so
    the only split is the whole run of white space; the body is greedy and
    must be followed by a quote, so it ends at the first quote.  The opening
    and the closing quote need not be the same character. *)
Definition attribute (ci : bool) (name : string) : pattern := fun s =>
  match Text.span_len Text.is_space s with
  | O => None
  | S _ as ws =>
      match Text.lit ci (name ++ "=") (Text.drop ws s) with
      | Some (String q r) =>
          if Text.is_quote q then
            let body := Text.span_len Text.not_quote r in
            match Text.drop body r with
            | String _ _ =>
                Some (ws + String.length name + 1 + 1 + body + 1)%nat
            | EmptyString => None
            end
          else None
      | _ => None
      end
  end.

(** [<!--.*?-->] with [re.DOTALL]: the lazy [.*?] stops at the first
    [-->] after the opening. *)
Definition comment : pattern := fun s =>
  if String.prefix "<!--" s then
    option_map (fun k => (4 + k + 3)%nat) (Text.find "-->" (Text.drop 4 s))
  else None.

End Re.

(** ** Normalizer and fingerprinter *)

Definition normalize_xml_for_comparison (content : string) : string :=
  let content := Re.sub (Re.attribute false "RUN_DATE") content in
  let content := Re.sub (Re.attribute true "run_date") content in
  let content := Re.sub (Re.attribute false "RUNDATE") content in
  let content := Re.sub (Re.attribute true "rundate") content in
  let content := Re.sub (Re.attribute true "timestamp") content in
  let content := Re.sub (Re.attribute true "generated") content in
  let content := Re.sub Re.comment content in
  content.

(** The seven patterns of the normalizer, in the order they are applied. *)
Definition volatile_patterns : list Re.pattern :=
  [ Re.attribute false "RUN_DATE"; Re.attribute true "run_date";
    Re.attribute false "RUNDATE"; Re.attribute true "rundate";
    Re.attribute true "timestamp"; Re.attribute true "generated";
    Re.comment ].

(** No pattern of the normalizer matches anywhere in [s]. *)
Definition volatile_free (s : string) : bool :=
  forallb (fun p => negb (Re.has_match p s)) volatile_patterns.

(** ** Python built-ins used by the program *)

Module Py.

(** [l[k:]] for a possibly negative [k]. *)
Definition slice_from {A : Type} (k : Z) (l : list A) : list A :=
  if 0 <=? k then drop (Z.to_nat k) l
  else drop (Z.to_nat (Z.of_nat (length l) + k)) l.

(** [sorted(l, reverse=True)] under the order [le]: a stable sort, so
    elements that compare equal keep the order they have in [l]. *)
Fixpoint insert_reverse {A : Type} (le : A -> A -> bool) (x : A)
    (l : list A) : list A :=
  match l with
  | [] => [x]
  | y :: l' => if le y x then x :: y :: l' else y :: insert_reverse le x l'
  end.

Definition sorted_reverse {A : Type} (le : A -> A -> bool) (l : list A)
    : list A :=
  foldr (insert_reverse le) [] l.

(** [''.join(parts)]. *)
Definition join (parts : list string) : string :=
  foldr String.append EmptyString parts.

Definition CR : ascii := ascii_of_N 13.
Definition LF : ascii := ascii_of_N 10.

(** Line boundaries of [str.splitlines] other than the pair CR LF. *)
Definition is_linebreak (c : ascii) : bool :=
  let n := Text.code c in
  ((10 <=? n) && (n <=? 13) || (28 <=? n) && (n <=? 30) || (n =? 133))%N.

Definition snoc (line : string) (c : ascii) : string :=
  line ++ String c EmptyString.

(** [s.splitlines(keepends=True)]; [line] is the line read so far. *)
Fixpoint splitlines_from (line s : string) : list string :=
  match s with
  | EmptyString => if String.eqb line EmptyString then [] else [line]
  | String c s' =>
      if Ascii.eqb c CR then
        match s' with
        | String c' s'' =>
            if Ascii.eqb c' LF
            then snoc (snoc line c) c' :: splitlines_from EmptyString s''
            else snoc line c :: splitlines_from EmptyString s'
        | EmptyString => [snoc line c]
        end
      else if is_linebreak c then snoc line c :: splitlines_from EmptyString s'
      else splitlines_from (snoc line c) s'
  end.

Definition splitlines (s : string) : list string :=
  splitlines_from EmptyString s.

(** Reading a file opened in text mode: CR LF and a lone CR become LF. *)
Fixpoint universal_newlines (s : string) : string :=
  match s with
  | EmptyString => EmptyString
  | String c s' =>
      if Ascii.eqb c CR then
        match s' with
        | String c' s'' =>
            if Ascii.eqb c' LF then String LF (universal_newlines s'')
            else String LF (universal_newlines s')
        | EmptyString => String LF EmptyString
        end
      else String c (universal_newlines s')
  end.

(** [int(s)] for a string of decimal digits. *)
Definition int_of_digits (s : string) : Z :=
  fold_left (fun acc c => 10 * acc + (Z.of_N (Text.code c) - 48))
            (list_ascii_of_string s) 0.

(** [s.endswith(suffix)]. *)
Definition endswith (s suffix : string) : bool :=
  String.eqb (Text.drop (String.length s - String.length suffix) s) suffix
  && (String.length suffix <=? String.length s)%nat.

(** [re.search]: the answer of [here] at the leftmost position where it
    has one. *)
Fixpoint search {A : Type} (here : string -> option A) (s : string)
    : option A :=
  match here s with
  | Some a => Some a
  | None =>
      match s with
      | EmptyString => None
      | String _ s' => search here s'
      end
  end.

End Py.

(** ** Data model *)

(** An entry of a snapshot directory: path name, modification time as
    [stat().st_mtime] reports it, and the stored text. *)
Record File := { name : string; st_mtime : Z; text : string }.

(** The library functions the program relies on. *)
Class Library := {
  (** [hashlib.md5(s.encode('utf-8')).hexdigest()] *)
  md5_hexdigest : string -> string;
  (** [difflib.unified_diff(a, b, fromfile, tofile, lineterm)] as a list *)
  unified_diff :
    list string -> list string -> string -> string -> string -> list string;
  (** the order in which [Path.glob] yields the entries of a directory *)
  glob_order : list File -> list File
}.

(** The dictionary under the key [email].  The configuration is whatever
    [json.load] found in the file: any key may be missing. *)
Record EmailConfig := {
  smtp_server : option string;
  smtp_port : option Z;
  username : option string;
  password : option string;
  from_address : option string;
  to_address : option string
}.

(** The configuration dictionary; a key that the file does not have is
    [None].  The program reads [rins], [data_directory] and [keep_files]
    with [dict.get] and a default, and [email] with a subscript. *)
Record Config := {
  rins : option (list string);
  data_directory : option string;
  keep_files : option Z;
  email : option EmailConfig
}.

(** A value that is a configuration dictionary or [None]. *)
Inductive pyconfig := PyNone | PyDict (c : Config).

Record RINMonitor := {
  config_file : string;
  config : Config;
  data_dir : string
}.

Inductive exn :=
| AttributeError (object attribute : string)
| RequestException (e : string)
| KeyError (key : string)
| OSError (path : string)
| SMTPException.

(** What the program prints, one constructor per [print] statement. *)
Inductive message :=
| NoConfigurationFile (config_file : string)
| CreatingDefaultConfig
| CouldNotPing (e : exn)
| ErrorFetchingXML
| DeletedOldFile (name : string)
| ErrorDeleting (name : string) (e : exn)
| EmailNotConfigured
| EmailSent (to : string)
| EmailError (e : exn)
| CheckingRIN (rin : string)
| CouldNotDetermineAgendas
| LatestAgenda (pubid : string)
| FailedToFetchXML
| RINNotFound (pubid : string)
| ChangeDetected (previous_pubid : option string) (latest_pubid : string)
| NoChangesDetected
| SavingBaseline (pubid : string)
| Banner
| NoRINsConfigured
| Monitoring (count : nat)
| Complete (changes : Z).

(** Observable actions: printing, the call of the notifier with its six
    arguments, and the message handed to the SMTP server. *)
Inductive event :=
| Print (m : message)
| Notifier (rin : string) (old_pubid : option string) (new_pubid : string)
    (diff_text : string) (old_file new_file : string)
| SmtpSend (rin : string) (old_pubid : option string) (new_pubid : string)
    (diff_preview : string).

(** The state the program acts on: the snapshot directories under
    [data_dir], keyed by tracked identifier, and what was output so far. *)
Record World := {
  files : gmap string (list File);
  output : list event
}.

(** What the outside answers during one pass over one identifier. *)
Inductive catalog_response :=
| CatalogFailure (e : string)
| CatalogPage (hrefs : list string).

Record Env := {
  (** the catalog request, and the [href] of every [a.pageSubNav] link *)
  catalog : catalog_response;
  (** the document request: [None] when [requests] raises *)
  response : option string;
  (** [datetime.now().strftime('%Y%m%d_%H%M%S')] at the write *)
  now : string;
  (** the modification time the file system gives to the written file *)
  mtime_now : Z;
  (** whether the SMTP exchange goes through *)
  smtp_delivers : bool;
  (** whether [unlink] raises on the file of this name (the file is in use,
      the directory is read-only, ...) *)
  unlink_fails : string -> bool
}.

(** ** State and exceptions *)

Inductive outcome (A : Type) :=
| Return (a : A)
| Raise (e : exn).
Arguments Return {A} a.
Arguments Raise {A} e.

Definition M (A : Type) : Type := World -> outcome A * World.

Definition ret {A : Type} (a : A) : M A := fun w => (Return a, w).

Definition bind {A B : Type} (m : M A) (k : A -> M B) : M B := fun w =>
  match m w with
  | (Return a, w') => k a w'
  | (Raise e, w') => (Raise e, w')
  end.

Definition raise {A : Type} (e : exn) : M A := fun w => (Raise e, w).

(** [try: body  except Exception as e: handler(e)] *)
Definition try_except {A : Type} (body : M A) (handler : exn -> M A) : M A :=
  fun w =>
    match body w with
    | (Return a, w') => (Return a, w')
    | (Raise e, w') => handler e w'
    end.

#[export] Instance M_ret : MRet M := @ret.
#[export] Instance M_bind : MBind M := fun A B k m => bind m k.

Definition emit (e : event) : M unit := fun w =>
  (Return tt, {| files := files w; output := output w ++ [e] |}).

Definition print (m : message) : M unit := emit (Print m).

Definition get_files : M (gmap string (list File)) := fun w =>
  (Return (files w), w).

Definition modify_files (f : gmap string (list File) -> gmap string (list File))
    : M unit := fun w =>
  (Return tt, {| files := f (files w); output := output w |}).

Fixpoint for_each {A : Type} (l : list A) (body : A -> M unit) : M unit :=
  match l with
  | [] => ret tt
  | x :: l' => body x ;; for_each l' body
  end.

(** [d[key]] on a dictionary: [KeyError] when the key is missing. *)
Definition subscript {A : Type} (value : option A) (key : string) : M A :=
  match value with
  | Some v => ret v
  | None => raise (KeyError key)
  end.

(** The truth value of [d.get(key)] for a text entry: a missing key gives
    [None], and [None] and the empty text are false. *)
Definition truthy (value : option string) : bool :=
  match value with
  | Some (String _ _) => true
  | _ => false
  end.

(** ** The class [RINMonitor] *)

Section Program.
Context `{Library}.

(** *** Configuration *)

(** The dictionary that [create_default_config] builds. *)
Definition default_config : Config :=
  {| rins := Some [];
     data_directory := Some "reginfo_data";
     keep_files := Some 2;
     email := Some {| smtp_server := Some "smtp.gmail.com";
                      smtp_port := Some 587;
                      username := Some ""; password := Some "";
                      from_address := Some ""; to_address := Some "" |} |}.

(** [create_default_config] binds the dictionary to a local variable and
    ends: the method has no [return] statement, so its value is [None]. *)
Definition create_default_config : M pyconfig :=
  let default_config := default_config in
  ret PyNone.

(** [load_config]; [source] is the parsed content of the configuration
    file, [None] when the file does not exist. *)
Definition load_config (config_file : string) (source : option Config)
    : M pyconfig :=
  match source with
  | None =>
      print (NoConfigurationFile config_file) ;;
      print CreatingDefaultConfig ;;
      create_default_config
  | Some c => ret (PyDict c)
  end.

(** [self.config.get(key, default)]: on [None] the attribute lookup fails. *)
Definition config_get {A : Type} (c : pyconfig) (field : Config -> option A)
    (default : A) : M A :=
  match c with
  | PyNone => raise (AttributeError "NoneType" "get")
  | PyDict c => ret (match field c with Some v => v | None => default end)
  end.

(** [__init__]: [self.config.get] is evaluated on what [load_config]
    returned; the directory [data_dir] itself is the root of [files]. *)
Definition init (config_file : string) (source : option Config)
    : M RINMonitor :=
  c ← load_config config_file source;
  dir ← config_get c data_directory "reginfo_data";
  match c with
  | PyDict cfg =>
      ret {| config_file := config_file; config := cfg; data_dir := dir |}
  | PyNone => raise (AttributeError "NoneType" "get")
  end.

(** *** Catalog resolver *)

(** The class body defines no attribute [generate_default_pubids], and the
    class has no base class: evaluating [self.generate_default_pubids]
    raises [AttributeError]. *)
Definition generate_default_pubids : M (list string) :=
  raise (AttributeError "RINMonitor" "generate_default_pubids").

(** [REGINFO_RIN_DATA_(\d{6})\.xml] at the head of [s]: group 1. *)
Definition pubid_in_href (s : string) : option string :=
  match Text.lit false "REGINFO_RIN_DATA_" s with
  | Some r =>
      let digits := Text.take 6 r in
      if (String.length digits =? 6)%nat
         && forallb Text.is_digit (list_ascii_of_string digits)
         && String.prefix ".xml" (Text.drop 6 r)
      then Some digits else None
  | None => None
  end.

(** The body of the loop over the navigation links. *)
Definition add_pubid (pubids : list string) (href : string) : list string :=
  match Py.search pubid_in_href href with
  | Some pubid =>
      if (String.length pubid =? 6)%nat
         && (Py.endswith pubid "04" || Py.endswith pubid "10")
      then
        let year := Py.int_of_digits (Text.take 4 pubid) in
        if (2020 <=? year) && (year <=? 2030)
        then (if bool_decide (pubid ∈ pubids) then pubids
              else pubid :: pubids)
        else pubids
      else pubids
  | None => pubids
  end.

Definition http_get_catalog (env : Env) : M (list string) :=
  match catalog env with
  | CatalogFailure e => raise (RequestException e)
  | CatalogPage hrefs => ret hrefs
  end.

Definition get_available_agendas (env : Env) : M (list string) :=
  try_except
    (nav_links ← http_get_catalog env;
     let pubids := foldl add_pubid [] nav_links in
     match pubids with
     | _ :: _ => ret (Py.sorted_reverse String.leb pubids)
     | [] => generate_default_pubids
     end)
    (fun e => print (CouldNotPing e) ;; generate_default_pubids).

(** *** Document fetcher *)

Definition build_rin_xml_url (rin pubid : string) : string :=
  "https://www.reginfo.gov/public/do/eAgendaViewRule?pubId=" ++ pubid
  ++ "&RIN=" ++ rin ++ "&operation=OPERATION_EXPORT_XML".

Definition fetch_rin_xml (env : Env) (rin pubid : string)
    : M (option string) :=
  let url := build_rin_xml_url rin pubid in
  match response env with
  | Some body => ret (Some body)
  | None => print ErrorFetchingXML ;; ret None
  end.

(** *** Fingerprinter *)

Definition get_content_hash (content : string) : string :=
  let normalized := normalize_xml_for_comparison content in
  md5_hexdigest normalized.

(** *** Snapshot store *)

Definition snapshot_name (rin pubid timestamp : string) : string :=
  "rin_" ++ rin ++ "_" ++ pubid ++ "_" ++ timestamp ++ ".xml".

(** [rin_dir.mkdir(exist_ok=True)] *)
Definition mkdir (rin : string) : M unit :=
  modify_files (fun fs =>
    match fs !! rin with
    | Some _ => fs
    | None => <[rin := []]> fs
    end).

(** Opening a path for writing: an entry of that name is replaced where it
    stands, a new name is added to the directory. *)
Definition write_entry (f : File) (d : list File) : list File :=
  if bool_decide (name f ∈ map name d)
  then map (fun g => if String.eqb (name g) (name f) then f else g) d
  else d ++ [f].

Definition write_text (rin : string) (f : File) : M unit :=
  modify_files (alter (write_entry f) rin).

Definition remove_entry (path : string) (d : list File) : list File :=
  filter (fun g => name g ≠ path) d.

(** [file_path.unlink()] on a path that was just listed: the entry goes,
    or the call raises and the entry stays. *)
Definition unlink (env : Env) (rin path : string) : M unit :=
  if unlink_fails env path
  then raise (OSError path)
  else modify_files (alter (remove_entry path) rin).

Definition mtime_le (f g : File) : bool := st_mtime f <=? st_mtime g.
Definition name_le (f g : File) : bool := String.leb (name f) (name g).

(** The directory [data_dir / rin] holds the files that [save_rin_xml]
    wrote and nothing else, and the identifier is free of the wildcard
    characters of [glob], so the pattern [rin_{rin}_*.xml] selects every
    entry. *)
Definition cleanup_old_files (env : Env) (rin : string) (keep_count : Z)
    : M unit :=
  fs ← get_files;
  match fs !! rin with
  | None => ret tt
  | Some d =>
      let files := Py.sorted_reverse mtime_le (glob_order d) in
      let files_to_delete := Py.slice_from keep_count files in
      for_each files_to_delete (fun file_path =>
        try_except
          (unlink env rin (name file_path) ;;
           print (DeletedOldFile (name file_path)))
          (fun e => print (ErrorDeleting (name file_path) e)))
  end.

Definition save_rin_xml (self : RINMonitor) (env : Env)
    (rin pubid content : string) : M string :=
  mkdir rin ;;
  let timestamp := now env in
  let filename := snapshot_name rin pubid timestamp in
  write_text rin
    {| name := filename; st_mtime := mtime_now env; text := content |} ;;
  let keep_count :=
    match keep_files (config self) with Some k => k | None => 2 end in
  cleanup_old_files env rin keep_count ;;
  ret filename.

Definition not_underscore (c : ascii) : bool :=
  negb (Ascii.eqb c (ascii_of_N 95)).

(** [rin_[^_]+_(\d{6})_] at the head of [s]: group 1.  The greedy class
    stops at the first underscore, the only place where the rest of the
    pattern can go on. *)
Definition pubid_in_name (s : string) : option string :=
  match Text.lit false "rin_" s with
  | Some r =>
      match Text.span_len not_underscore r with
      | O => None
      | S _ as n =>
          match Text.lit false "_" (Text.drop n r) with
          | Some r' =>
              let digits := Text.take 6 r' in
              if (String.length digits =? 6)%nat
                 && forallb Text.is_digit (list_ascii_of_string digits)
                 && String.prefix "_" (Text.drop 6 r')
              then Some digits else None
          | None => None
          end
      end
  | None => None
  end.

Definition get_latest_file_for_rin (rin : string)
    : M (option string * option File) :=
  fs ← get_files;
  match fs !! rin with
  | None => ret (None, None)
  | Some d =>
      let files := Py.sorted_reverse name_le (glob_order d) in
      match files with
      | [] => ret (None, None)
      | latest_file :: _ =>
          match Py.search pubid_in_name (name latest_file) with
          | Some pubid => ret (Some pubid, Some latest_file)
          | None => ret (None, Some latest_file)
          end
      end
  end.

(** [open(previous_file, 'r', encoding='utf-8').read()] *)
Definition read_text (f : File) : string := Py.universal_newlines (text f).

(** *** Differ *)

Definition compare_xml (old_content new_content : string) : string :=
  let old_normalized := normalize_xml_for_comparison old_content in
  let new_normalized := normalize_xml_for_comparison new_content in
  let old_lines := Py.splitlines old_normalized in
  let new_lines := Py.splitlines new_normalized in
  let diff := unified_diff old_lines new_lines "Previous" "Current" "" in
  Py.join diff.

(** *** Notifier *)

Definition send_email_notification (self : RINMonitor) (env : Env)
    (rin : string) (old_pubid : option string) (new_pubid diff_text : string)
    (old_file new_file : string) : M bool :=
  emit (Notifier rin old_pubid new_pubid diff_text old_file new_file) ;;
  smtp_config ← subscript (email (config self)) "email";
  if negb (truthy (username smtp_config))
     || negb (truthy (password smtp_config))
  then print EmailNotConfigured ;; ret false
  else
    msg_from ← subscript (from_address smtp_config) "from_address";
    msg_to ← subscript (to_address smtp_config) "to_address";
    try_except
      (server ← subscript (smtp_server smtp_config) "smtp_server";
       port ← subscript (smtp_port smtp_config) "smtp_port";
       (if smtp_delivers env
        then emit (SmtpSend rin old_pubid new_pubid
                     (Text.take 5000 diff_text))
        else raise SMTPException) ;;
       print (EmailSent msg_to) ;;
       ret true)
      (fun e => print (EmailError e) ;; ret false).

(** *** Change detector *)

Definition monitor_rin (self : RINMonitor) (env : Env) (rin : string)
    : M bool :=
  print (CheckingRIN rin) ;;
  available_pubids ← get_available_agendas env;
  match available_pubids with
  | [] => print CouldNotDetermineAgendas ;; ret false
  | latest_pubid :: _ =>
      print (LatestAgenda latest_pubid) ;;
      current_xml ← fetch_rin_xml env rin latest_pubid;
      match current_xml with
      | None => print FailedToFetchXML ;; ret false
      | Some EmptyString => print FailedToFetchXML ;; ret false
      | Some current_xml =>
          if Text.contains "not found" (Text.lower_str current_xml)
             || (String.length current_xml <? 100)%nat
          then print (RINNotFound latest_pubid) ;; ret false
          else
            '(previous_pubid, previous_file) ← get_latest_file_for_rin rin;
            match previous_file with
            | Some previous_file =>
                let previous_xml := read_text previous_file in
                let current_hash := get_content_hash current_xml in
                let previous_hash := get_content_hash previous_xml in
                if negb (String.eqb current_hash previous_hash)
                then
                  print (ChangeDetected previous_pubid latest_pubid) ;;
                  new_file ← save_rin_xml self env rin latest_pubid current_xml;
                  let diff := compare_xml previous_xml current_xml in
                  send_email_notification self env rin previous_pubid
                    latest_pubid diff (name previous_file) new_file ;;
                  ret true
                else
                  print NoChangesDetected ;;
                  save_rin_xml self env rin latest_pubid current_xml ;;
                  ret false
            | None =>
                print (SavingBaseline latest_pubid) ;;
                save_rin_xml self env rin latest_pubid current_xml ;;
                ret false
            end
      end
  end.

(** The loop of [run]; the [i]-th iteration meets the answers [envs i]. *)
Fixpoint monitor_each (self : RINMonitor) (envs : nat -> Env) (i : nat)
    (rins : list string) (changes : Z) : M Z :=
  match rins with
  | [] => ret changes
  | rin :: rest =>
      changed ← monitor_rin self (envs i) rin;
      monitor_each self envs (S i) rest
        (if (changed : bool) then changes + 1 else changes)
  end.

Definition run (self : RINMonitor) (envs : nat -> Env) : M unit :=
  print Banner ;;
  let rins := match rins (config self) with Some l => l | None => [] end in
  match rins with
  | [] => print NoRINsConfigured
  | _ :: _ =>
      print (Monitoring (length rins)) ;;
      changes ← monitor_each self envs O rins 0;
      print (Complete changes)
  end.

(** [main]: construct the monitor, then run it. *)
Definition main (source : option Config) (envs : nat -> Env) : M unit :=
  monitor ← init "config.json" source;
  run monitor envs.

End Program.

(** ** Vocabulary of the properties *)

Section Vocabulary.
Context `{Library}.

(** The retained snapshot records of an identifier. *)
Definition snapshots (w : World) (rin : string) : list File :=
  match files w !! rin with Some d => d | None => [] end.

(** The retention count in force: [self.config.get('keep_files', 2)]. *)
Definition keep_count (self : RINMonitor) : Z :=
  match keep_files (config self) with Some k => k | None => 2 end.

(** The files that the sweep of a directory selects for deletion, and the
    directory that the sweep leaves. *)
Definition files_to_delete (keep : Z) (d : list File) : list File :=
  Py.slice_from keep (Py.sorted_reverse mtime_le (glob_order d)).

Definition sweep (env : Env) (keep : Z) (d : list File) : list File :=
  foldl (fun d file_path =>
           if unlink_fails env (name file_path) then d
           else remove_entry (name file_path) d)
        d (files_to_delete keep d).

(** The selected files that the sweep removes: those on which [unlink]
    does not raise. *)
Definition removed (env : Env) (keep : Z) (d : list File) : list File :=
  filter (fun file_path => unlink_fails env (name file_path) = false)
         (files_to_delete keep d).

(** No [unlink] fails while these answers hold. *)
Definition unlink_succeeds (env : Env) : Prop :=
  forall path, unlink_fails env path = false.

(** The entry that [save_rin_xml] writes. *)
Definition written (env : Env) (rin pubid content : string) : File :=
  {| name := snapshot_name rin pubid (now env);
     st_mtime := mtime_now env;
     text := content |}.

(** The lines that the sweep prints. *)
Definition deletions (env : Env) (keep : Z) (d : list File) : list event :=
  map (fun file_path =>
         Print (if unlink_fails env (name file_path)
                then ErrorDeleting (name file_path)
                       (OSError (name file_path))
                else DeletedOldFile (name file_path)))
      (files_to_delete keep d).

(** One write-and-sweep cycle: the batch id and the content handed to
    [save_rin_xml], and the clock readings at the write. *)
Record Cycle := { at_env : Env; batch : string; content : string }.

Definition cycle_file (rin : string) (c : Cycle) : File :=
  written (at_env c) rin (batch c) (content c).

Fixpoint save_each (self : RINMonitor) (rin : string) (cycles : list Cycle)
    : M unit :=
  match cycles with
  | [] => ret tt
  | c :: rest =>
      save_rin_xml self (at_env c) rin (batch c) (content c) ;;
      save_each self rin rest
  end.

(** [descending le x y]: [x] may stand before [y] in a list sorted in
    reverse under [le]. *)
Definition descending {A : Type} (le : A -> A -> bool) (x y : A) : Prop :=
  le y x = true.

(** [older f g]: the file [f] was modified before the file [g]. *)
Definition older (f g : File) : Prop := st_mtime f < st_mtime g.

(** The last [n] elements of a list. *)
Definition last_n {A : Type} (n : nat) (l : list A) : list A :=
  drop (length l - n) l.

(** The batch ids that the catalog page yields, newest first. *)
Definition scraped (env : Env) : list string :=
  match catalog env with
  | CatalogPage hrefs => Py.sorted_reverse String.leb (foldl add_pubid [] hrefs)
  | CatalogFailure _ => []
  end.

(** The content test of [monitor_rin] on a fetched response. *)
Definition not_found (current_xml : string) : bool :=
  Text.contains "not found" (Text.lower_str current_xml)
  || (String.length current_xml <? 100)%nat.

Definition is_notifier (e : event) : bool :=
  match e with Notifier _ _ _ _ _ _ => true | _ => false end.

(** What [get_latest_file_for_rin] answers on a directory ([None]: the
    directory does not exist). *)
Definition latest_lookup (dir : option (list File))
    : option string * option File :=
  match dir with
  | None => (None, None)
  | Some d =>
      match Py.sorted_reverse name_le (glob_order d) with
      | [] => (None, None)
      | latest_file :: _ =>
          (Py.search pubid_in_name (name latest_file), Some latest_file)
      end
  end.

(** The credentials that the notifier asks for are set. *)
Definition credentials_set (smtp_config : EmailConfig) : bool :=
  truthy (username smtp_config) && truthy (password smtp_config).

(** The configuration has every key that the notifier subscripts outside
    its [try] block: [email], and with credentials set [from_address] and
    [to_address]. *)
Definition notifier_ready (c : Config) : bool :=
  match email c with
  | None => false
  | Some smtp_config =>
      negb (credentials_set smtp_config)
      || (bool_decide (is_Some (from_address smtp_config))
          && bool_decide (is_Some (to_address smtp_config)))
  end.

(** What the notifier does after it was called, and how it ends: a missing
    key raises, without credentials nothing is sent, else there is one SMTP
    exchange. *)
Definition delivery (self : RINMonitor) (env : Env) (rin : string)
    (old_pubid : option string) (new_pubid diff_text : string)
    : outcome bool * list event :=
  match email (config self) with
  | None => (Raise (KeyError "email"), [])
  | Some smtp_config =>
      if credentials_set smtp_config
      then
        match from_address smtp_config, to_address smtp_config with
        | None, _ => (Raise (KeyError "from_address"), [])
        | Some _, None => (Raise (KeyError "to_address"), [])
        | Some _, Some msg_to =>
            match smtp_server smtp_config, smtp_port smtp_config with
            | None, _ =>
                (Return false, [Print (EmailError (KeyError "smtp_server"))])
            | Some _, None =>
                (Return false, [Print (EmailError (KeyError "smtp_port"))])
            | Some _, Some _ =>
                if smtp_delivers env
                then (Return true,
                      [SmtpSend rin old_pubid new_pubid
                         (Text.take 5000 diff_text);
                       Print (EmailSent msg_to)])
                else (Return false, [Print (EmailError SMTPException)])
            end
        end
      else (Return false, [Print EmailNotConfigured])
  end.

(** How the change path of [monitor_rin] ends after the notifier: the
    answer of the notifier is dropped, its exception goes on. *)
Definition after_notifier (o : outcome bool) : outcome bool :=
  match o with
  | Return _ => Return true
  | Raise e => Raise e
  end.

(** The world after more output. *)
Definition say (w : World) (events : list event) : World :=
  {| files := files w; output := output w ++ events |}.

(** The world after one write-and-sweep cycle on [rin]. *)
Definition saved (self : RINMonitor) (env : Env) (rin pubid content : string)
    (w : World) : World :=
  let d := write_entry (written env rin pubid content) (snapshots w rin) in
  {| files := <[rin := sweep env (keep_count self) d]> (files w);
     output := output w ++ deletions env (keep_count self) d |}.

(** The contract of [Path.glob]: the entries of the directory, each once,
    in an order that the file system chooses. *)
Class GlobContract : Prop :=
  glob_order_perm : forall d : list File, glob_order d ≡ₚ d.

(** The contract of [difflib.unified_diff]: nothing for equal sequences;
    otherwise the two header lines and the header of the first hunk, each
    ended by [lineterm], then the lines of the hunks. *)
Class DiffContract : Prop := {
  unified_diff_equal : forall a fromfile tofile lineterm,
    unified_diff a a fromfile tofile lineterm = [];
  unified_diff_differ : forall a b fromfile tofile lineterm,
    a <> b ->
    exists ranges hunks,
      unified_diff a b fromfile tofile lineterm
      = ("--- " ++ fromfile ++ lineterm)
        :: ("+++ " ++ tofile ++ lineterm)
        :: ("@@ -" ++ ranges ++ " @@" ++ lineterm) :: hunks
}.



End Vocabulary.

(** ** Instances used to run the program on examples *)

Module Examples.

(** Range of a hunk header, as [difflib] formats it. *)
Definition format_range (start stop : nat) : string :=
  let decimal n := DecimalString.NilZero.string_of_uint (Nat.to_uint n) in
  match (stop - start)%nat with
  | 1%nat => decimal (start + 1)%nat
  | O => decimal start ++ ",0"
  | len => decimal (start + 1)%nat ++ "," ++ decimal len
  end.

(** A unified diff with a single hunk that replaces the whole text. *)
Definition whole_file_diff (a b : list string) (fromfile tofile lineterm : string)
    : list string :=
  if bool_decide (a = b) then []
  else ("--- " ++ fromfile ++ lineterm)
       :: ("+++ " ++ tofile ++ lineterm)
       :: ("@@ -" ++ format_range 0 (length a) ++ " +"
           ++ format_range 0 (length b) ++ " @@" ++ lineterm)
       :: map (String.append "-") a ++ map (String.append "+") b.

(** The digest is the text itself, every difference is one hunk, and a
    directory is listed in the order its entries were created. *)
#[export] Instance library : Library :=
  {| md5_hexdigest := fun s => s;
     unified_diff := whole_file_diff;
     glob_order := fun d => d |}.

Definition rin : string := "1234-AB01".

Definition monitor (keep : Z) : RINMonitor :=
  {| config_file := "config.json";
     config := {| rins := Some [rin]; data_directory := Some "reginfo_data";
                  keep_files := Some keep; email := email default_config |};
     data_dir := "reginfo_data" |}.

Definition empty_world : World := {| files := ∅; output := [] |}.

Definition page : catalog_response :=
  CatalogPage ["/public/do/XMLViewFileAction?f=REGINFO_RIN_DATA_202504.xml"].

(** A document of the form of the scenarios, padded beyond 100 characters. *)
Definition document (run_date payload : string) : string :=
  "<rule id='1234-AB01' RUN_DATE='" ++ run_date ++ "'>" ++ payload
  ++ " .................................................."
  ++ "..................................................</rule>".

Definition env_at (stamp : string) (mtime : Z) (body : option string) : Env :=
  {| catalog := page; response := body; now := stamp; mtime_now := mtime;
     smtp_delivers := true; unlink_fails := fun _ => false |}.

(** A write of [body] under batch [pubid] at the given clock readings. *)
Definition cycle_at (pubid stamp : string) (mtime : Z) (body : string)
    : Cycle :=
  {| at_env := env_at stamp mtime None; batch := pubid; content := body |}.

(** Five writes, one a day. *)
Definition five_writes : list Cycle :=
  [ cycle_at "202504" "20240101_000000" 1 "v1";
    cycle_at "202504" "20240102_000000" 2 "v2";
    cycle_at "202504" "20240103_000000" 3 "v3";
    cycle_at "202504" "20240104_000000" 4 "v4";
    cycle_at "202504" "20240105_000000" 5 "v5" ].

(** Two writes within one second. *)
Definition same_second : list Cycle :=
  [ cycle_at "202504" "20240101_120000" 10 "v1";
    cycle_at "202504" "20240101_120000" 11 "v2" ].

(** The catalog offers an older batch at the second write. *)
Definition batch_goes_back : list Cycle :=
  [ cycle_at "202510" "20251101_090000" 100 "v1";
    cycle_at "202504" "20251201_090000" 200 "v2" ].

(** The local clock is set back one hour between two writes. *)
Definition clock_goes_back : list Cycle :=
  [ cycle_at "202504" "20251102_013000" 100 "v1";
    cycle_at "202504" "20251102_010500" 200 "v2" ].

(** The file system gives the second file an earlier modification time
    than the first; and it gives two files, written in consecutive seconds,
    the same modification time. *)
Definition mtime_goes_back : list Cycle :=
  [ cycle_at "202504" "20240101_120000" 20 "v1";
    cycle_at "202504" "20240101_120001" 10 "v2" ].
Definition same_mtime : list Cycle :=
  [ cycle_at "202504" "20240101_120000" 10 "v1";
    cycle_at "202504" "20240101_120001" 10 "v2" ].

(** Answers under which every [unlink] raises, and two writes under them. *)
Definition env_locked (stamp : string) (mtime : Z) (body : option string)
    : Env :=
  {| catalog := page; response := body; now := stamp; mtime_now := mtime;
     smtp_delivers := true; unlink_fails := fun _ => true |}.
Definition locked_writes : list Cycle :=
  [ {| at_env := env_locked "20240101_000000" 1 None;
       batch := "202504"; content := "v1" |};
    {| at_env := env_locked "20240102_000000" 2 None;
       batch := "202504"; content := "v2" |} ].


(** The three passes of the scenarios. *)
Definition first_pass : Env :=
  env_at "20240101_000000" 1 (Some (document "2024-01-01" "data v1")).
Definition second_pass : Env :=
  env_at "20240201_000000" 2 (Some (document "2024-02-01" "data v1")).
Definition third_pass : Env :=
  env_at "20240301_000000" 3 (Some (document "2024-03-01" "data v2")).

Definition first_file : File :=
  written first_pass rin "202504" (document "2024-01-01" "data v1").

(** The world after the baseline pass. *)
Definition baseline_world : World :=
  {| files := {[ rin := [first_file] ]};
     output := [Print (CheckingRIN rin); Print (LatestAgenda "202504");
                Print (SavingBaseline "202504")] |}.

(** A pass that gets a short error page, and one that gets a document in
    which the words of the marker occur. *)
Definition short_pass : Env :=
  env_at "20240401_000000" 4 (Some "<html>error</html>").
Definition marked_document : string :=
  document "2024-04-01" "Docket number not found in the prior agenda".
Definition marked_pass : Env :=
  env_at "20240401_000000" 4 (Some marked_document).



(** A pass during which every [unlink] raises. *)
Definition locked_pass : Env :=
  env_locked "20240101_000000" 1 (Some (document "2024-01-01" "data v1")).

(** A pass during which the catalog cannot be reached, and one during which
    its page has no link to a batch. *)
Definition unreachable_pass : Env :=
  {| catalog := CatalogFailure "connection refused";
     response := Some (document "2024-01-01" "data v1");
     now := "20240101_000000"; mtime_now := 1; smtp_delivers := true;
     unlink_fails := fun _ => false |}.
Definition empty_page_pass : Env :=
  {| catalog := CatalogPage ["/public/do/eAgendaMain"];
     response := Some (document "2024-01-01" "data v1");
     now := "20240101_000000"; mtime_now := 1; smtp_delivers := true;
     unlink_fails := fun _ => false |}.

End Examples.

(** ** Vocabulary of the further properties *)

(** A batch id of the form that the catalog resolver accepts: six digits,
    the last two 04 or 10, the first four a year from 2020 to 2030. *)
Definition well_formed_pubid (p : string) : Prop :=
  String.length p = 6%nat
  /\ forallb Text.is_digit (list_ascii_of_string p) = true
  /\ (Text.drop 4 p = "04" \/ Text.drop 4 p = "10")
  /\ 2020 <= Py.int_of_digits (Text.take 4 p) <= 2030.

(** The link [href] yields the batch id [p]. *)
Definition yields (href p : string) : Prop :=
  Py.search pubid_in_href href = Some p /\ well_formed_pubid p.

(** [string_gt p q]: [p] is greater than [q] in the order of strings. *)
Definition string_gt (p q : string) : Prop := String.ltb q p = true.

(** The text has no carriage return. *)
Definition no_cr (s : string) : bool :=
  forallb (fun c => negb (Ascii.eqb c Py.CR)) (list_ascii_of_string s).

(** The identifier can stand in a file name that the lookup can read back:
    it is not empty and has no underscore. *)
Definition plain_rin (rin : string) : bool :=
  negb (String.eqb rin EmptyString)
  && forallb not_underscore (list_ascii_of_string rin).

(** Six decimal digits. *)
Definition six_digits (p : string) : bool :=
  (String.length p =? 6)%nat
  && forallb Text.is_digit (list_ascii_of_string p).

(** The number of entries that a sweep with the count [keep] leaves in a
    directory of [n] entries: [l[keep:]] is deleted, and a negative [keep]
    counts from the end of the listing. *)
Definition left_by_sweep (keep : Z) (n : nat) : nat :=
  if 0 <=? keep then Nat.min (Z.to_nat keep) n
  else (n - Nat.min (Z.to_nat (- keep)) n)%nat.

(** Equality of directory entries is decidable. *)
#[export] Instance File_eq_dec : EqDecision File.
Proof. solve_decision. Defined.

(** ** Further example inputs *)

Module MoreExamples.
Import Examples.

(** A catalog page with two batch links, and the same page with the links
    in the other order. *)
Definition two_links : list string :=
  [ "/public/do/XMLViewFileAction?f=REGINFO_RIN_DATA_202504.xml";
    "/public/do/XMLViewFileAction?f=REGINFO_RIN_DATA_202510.xml" ].
Definition two_links_swapped : list string :=
  [ "/public/do/XMLViewFileAction?f=REGINFO_RIN_DATA_202510.xml";
    "/public/do/XMLViewFileAction?f=REGINFO_RIN_DATA_202504.xml" ].

Definition env_with_links (hrefs : list string) : Env :=
  {| catalog := CatalogPage hrefs; response := None;
     now := "20240101_000000"; mtime_now := 1; smtp_delivers := true;
     unlink_fails := fun _ => false |}.

(** A monitor with credentials and every key of the [email] block, and one
    whose [email] block has the credentials but not the address of the
    recipient. *)
Definition monitor_with_credentials : RINMonitor :=
  {| config_file := "config.json";
     config := {| rins := Some [rin]; data_directory := Some "reginfo_data";
                  keep_files := Some 2;
                  email := Some {| smtp_server := Some "smtp.example.org";
                                   smtp_port := Some 587;
                                   username := Some "monitor";
                                   password := Some "secret";
                                   from_address := Some "monitor@example.org";
                                   to_address := Some "desk@example.org" |} |};
     data_dir := "reginfo_data" |}.
Definition monitor_without_recipient : RINMonitor :=
  {| config_file := "config.json";
     config := {| rins := Some [rin]; data_directory := Some "reginfo_data";
                  keep_files := Some 2;
                  email := Some {| smtp_server := Some "smtp.example.org";
                                   smtp_port := Some 587;
                                   username := Some "monitor";
                                   password := Some "secret";
                                   from_address := Some "monitor@example.org";
                                   to_address := None |} |};
     data_dir := "reginfo_data" |}.

(** A directory of three snapshots, two of them modified at the same time. *)
Definition old_file : File :=
  {| name := "rin_1234-AB01_202504_20240101_000000.xml";
     st_mtime := 1; text := "v1" |}.
Definition mid_file : File :=
  {| name := "rin_1234-AB01_202504_20240102_000000.xml";
     st_mtime := 2; text := "v2" |}.
Definition new_file : File :=
  {| name := "rin_1234-AB01_202510_20240102_000000.xml";
     st_mtime := 2; text := "v3" |}.
Definition three_files : list File := [old_file; mid_file; new_file].
Definition three_files_world : World :=
  {| files := {[ rin := three_files ]}; output := [] |}.

(** A pass whose document request fails. *)
Definition failed_fetch_pass : Env := env_at "20240401_000000" 4 None.

(** A pass that fetches the text of the baseline again. *)
Definition repeat_pass : Env :=
  env_at "20240201_000000" 2 (Some (document "2024-01-01" "data v1")).

End MoreExamples.

(** * Properties *)

(** ** Normalizer *)

Section Substitution.
Variable p : Re.pattern.

Lemma sub_from_length (s : string) :
  forall skip, (String.length (Re.sub_from p skip s) <= String.length s)%nat.
Proof.
  induction s as [|c s IH]; intros skip; simpl; [lia|].
  destruct skip as [|k].
  - destruct (p (String c s)) as [[|k]|]; simpl;
      try (specialize (IH O); lia).
    specialize (IH k); lia.
  - specialize (IH k); lia.
Qed.

Lemma sub_shrinks (s : string) :
  Re.has_match p s = true ->
  (String.length (Re.sub p s) < String.length s)%nat.
Proof.
  unfold Re.sub.
  induction s as [|c s IH]; simpl; [discriminate|].
  unfold Re.matches_here.
  destruct (p (String c s)) as [[|k]|]; simpl; intros Hm.
  - apply IH in Hm. lia.
  - pose proof (sub_from_length s k). lia.
  - apply IH in Hm. lia.
Qed.

Lemma sub_no_match (s : string) :
  Re.has_match p s = false -> Re.sub p s = s.
Proof.
  unfold Re.sub.
  induction s as [|c s IH]; simpl; [reflexivity|].
  unfold Re.matches_here.
  destruct (p (String c s)) as [[|k]|]; simpl; intros Hm;
    try discriminate; f_equal; auto.
Qed.

Lemma sub_length_le (s : string) :
  (String.length (Re.sub p s) <= String.length s)%nat.
Proof. apply sub_from_length. Qed.

(** A substitution leaves the text as it is exactly when there is no match. *)
Lemma sub_fixed_iff (s : string) :
  Re.sub p s = s <-> Re.has_match p s = false.
Proof.
  split; [|apply sub_no_match].
  intros Heq. destruct (Re.has_match p s) eqn:Hm; [|reflexivity].
  apply sub_shrinks in Hm. rewrite Heq in Hm. lia.
Qed.

(** If a substitution keeps the length, it keeps the text. *)
Lemma sub_same_length (s : string) :
  String.length (Re.sub p s) = String.length s -> Re.sub p s = s.
Proof.
  intros Hlen. apply sub_no_match.
  destruct (Re.has_match p s) eqn:Hm; [|reflexivity].
  apply sub_shrinks in Hm. lia.
Qed.

End Substitution.

(** The normalizer as the fold of its substitutions. *)
Lemma normalize_as_fold (content : string) :
  normalize_xml_for_comparison content
  = fold_left (fun s p => Re.sub p s) volatile_patterns content.
Proof. reflexivity. Qed.

Lemma fold_sub_length (ps : list Re.pattern) (s : string) :
  (String.length (fold_left (fun s p => Re.sub p s) ps s)
   <= String.length s)%nat.
Proof.
  revert s. induction ps as [|p ps IH]; intros s; simpl; [lia|].
  specialize (IH (Re.sub p s)). pose proof (sub_length_le p s). lia.
Qed.

Lemma fold_sub_fixed_iff (ps : list Re.pattern) (s : string) :
  fold_left (fun s p => Re.sub p s) ps s = s
  <-> forallb (fun p => negb (Re.has_match p s)) ps = true.
Proof.
  revert s. induction ps as [|p ps IH]; intros s; simpl; [tauto|].
  rewrite andb_true_iff, negb_true_iff. split.
  - intros Heq.
    assert (Hp : Re.sub p s = s).
    { apply sub_same_length.
      pose proof (fold_sub_length ps (Re.sub p s)) as H1.
      pose proof (sub_length_le p s) as H2.
      rewrite Heq in H1. lia. }
    split; [by apply sub_fixed_iff|].
    apply IH. by rewrite Hp in Heq.
  - intros [Hp Hps]. apply sub_no_match in Hp. rewrite Hp. by apply IH.
Qed.

(** The fixed points of the normalizer are the texts without a match. *)
Lemma normalize_fixed_iff (s : string) :
  normalize_xml_for_comparison s = s <-> volatile_free s = true.
Proof. rewrite normalize_as_fold. apply fold_sub_fixed_iff. Qed.

(** The normalizer never lengthens a text. *)
Lemma normalize_length (s : string) :
  (String.length (normalize_xml_for_comparison s) <= String.length s)%nat.
Proof. rewrite normalize_as_fold. apply fold_sub_length. Qed.

(** C3, as amended.  Normalizing a second time changes nothing exactly when
    the first normalization left no match of a volatile pattern behind; a
    removal that splices its two sides into a new match breaks idempotence. *)
Theorem normalize_idempotent_iff (T : string) :
  normalize_xml_for_comparison (normalize_xml_for_comparison T)
  = normalize_xml_for_comparison T
  <-> volatile_free (normalize_xml_for_comparison T) = true.
Proof. apply normalize_fixed_iff. Qed.

(** C3, as stated, fails: removing the inner comment leaves a comment. *)
Lemma normalize_not_idempotent :
  let T := "<!-<!---->--->" in
  normalize_xml_for_comparison T = "<!---->"
  /\ normalize_xml_for_comparison (normalize_xml_for_comparison T) = ""
  /\ normalize_xml_for_comparison (normalize_xml_for_comparison T)
     <> normalize_xml_for_comparison T.
Proof. vm_compute. repeat split; discriminate. Qed.

(** ** Sorting and slicing *)

Section Sorting.
Context {A : Type} (le : A -> A -> bool).

#[local] Abbreviation descending := (descending le).

Lemma insert_reverse_perm (x : A) (l : list A) :
  Py.insert_reverse le x l ≡ₚ x :: l.
Proof.
  induction l as [|y l IH]; simpl; [done|].
  destruct (le y x); [done|].
  rewrite IH. apply Permutation_swap.
Qed.

Lemma sorted_reverse_perm (l : list A) : Py.sorted_reverse le l ≡ₚ l.
Proof.
  induction l as [|x l IH]; simpl; [done|].
  rewrite insert_reverse_perm. by rewrite IH.
Qed.

Hypothesis le_total : forall x y, le x y = true \/ le y x = true.
Hypothesis le_trans : forall x y z, le x y = true -> le y z = true -> le x z = true.

Lemma insert_reverse_sorted (x : A) (l : list A) :
  StronglySorted descending l ->
  StronglySorted descending (Py.insert_reverse le x l).
Proof.
  induction 1 as [|y l Hl IH Hy]; simpl.
  - repeat constructor.
  - destruct (le y x) eqn:Hyx.
    + constructor; [by constructor|].
      constructor; [exact Hyx|].
      eapply Forall_impl; [exact Hy|].
      intros z Hz. unfold descending in *. eauto.
    + constructor; [exact IH|].
      rewrite insert_reverse_perm. constructor; [|exact Hy].
      unfold descending. destruct (le_total x y); congruence.
Qed.

Lemma sorted_reverse_sorted (l : list A) :
  StronglySorted descending (Py.sorted_reverse le l).
Proof.
  induction l as [|x l IH]; simpl; [constructor|].
  by apply insert_reverse_sorted.
Qed.

(** The head of a list sorted in reverse is a greatest element. *)
Lemma sorted_reverse_head (l : list A) (x : A) (rest : list A) :
  Py.sorted_reverse le l = x :: rest ->
  x ∈ l /\ forall y, y ∈ l -> le y x = true.
Proof.
  intros Hs. pose proof (sorted_reverse_sorted l) as Hsorted.
  pose proof (sorted_reverse_perm l) as Hperm.
  rewrite Hs in Hsorted, Hperm. split.
  - rewrite <- Hperm. by left.
  - intros y Hy. rewrite <- Hperm in Hy. inv Hy.
    + destruct (le_total x x); done.
    + apply StronglySorted_inv in Hsorted as [_ Hall].
      rewrite Forall_forall in Hall. by apply Hall.
Qed.

Lemma sorted_reverse_nil (l : list A) :
  Py.sorted_reverse le l = [] <-> l = [].
Proof.
  split; [|by intros ->].
  intros Hs. pose proof (sorted_reverse_perm l) as Hperm.
  rewrite Hs in Hperm. by apply Permutation_nil in Hperm.
Qed.

End Sorting.

Lemma slice_from_nonneg {A : Type} (k : Z) (l : list A) :
  0 <= k -> Py.slice_from k l = drop (Z.to_nat k) l.
Proof. intros Hk. unfold Py.slice_from. by rewrite (proj2 (Z.leb_le 0 k) Hk). Qed.

Lemma last_n_length {A : Type} (n : nat) (l : list A) :
  length (last_n n l) = Nat.min n (length l).
Proof. unfold last_n. rewrite length_drop. lia. Qed.

Lemma last_n_snoc {A : Type} (n : nat) (l : list A) (x : A) :
  last_n n (last_n n l ++ [x]) = last_n n (l ++ [x]).
Proof.
  unfold last_n. rewrite !length_app, length_drop. simpl.
  destruct (decide (length l <= n)%nat) as [Hle|Hgt].
  - replace (length l - n)%nat with O by lia. simpl.
    by rewrite Nat.sub_0_r.
  - destruct n as [|n].
    + rewrite !drop_ge; [done| |]; rewrite ?length_app, ?length_drop; simpl; lia.
    + rewrite !drop_app_le by (rewrite ?length_drop; lia).
      rewrite drop_drop. f_equal. f_equal. lia.
Qed.

Lemma mtime_le_total (f g : File) : mtime_le f g = true \/ mtime_le g f = true.
Proof. unfold mtime_le. lia. Qed.

Lemma mtime_le_trans (f g h : File) :
  mtime_le f g = true -> mtime_le g h = true -> mtime_le f h = true.
Proof. unfold mtime_le. lia. Qed.

Lemma string_leb_iff (a b : string) :
  String.leb a b = true <-> a = b \/ OrderedTypeEx.String_as_OT.lt a b.
Proof.
  unfold String.leb.
  destruct (String.compare a b) eqn:Hc.
  - apply String.compare_eq_iff in Hc. tauto.
  - apply OrderedTypeEx.String_as_OT.cmp_lt in Hc. tauto.
  - split; [discriminate|].
    intros [->|Hlt].
    + assert (String.compare b b = Eq) as Hb
        by (by apply OrderedTypeEx.String_as_OT.cmp_eq).
      congruence.
    + apply OrderedTypeEx.String_as_OT.cmp_lt in Hlt.
      unfold OrderedTypeEx.String_as_OT.cmp in Hlt. congruence.
Qed.

Lemma string_leb_trans (a b c : string) :
  String.leb a b = true -> String.leb b c = true -> String.leb a c = true.
Proof.
  rewrite !string_leb_iff. intros [->|Hab] [->|Hbc]; auto.
  right. eapply OrderedTypeEx.String_as_OT.lt_trans; eauto.
Qed.

Lemma name_le_total (f g : File) : name_le f g = true \/ name_le g f = true.
Proof. apply String.leb_total. Qed.

Lemma name_le_trans (f g h : File) :
  name_le f g = true -> name_le g h = true -> name_le f h = true.
Proof. apply string_leb_trans. Qed.

(** ** Snapshot store *)

Section Store.
Context `{Library}.

Lemma world_eta (w : World) : {| files := files w; output := output w |} = w.
Proof. by destruct w. Qed.

Lemma run_bind {A B : Type} (m : M A) (k : A -> M B) (w : World) :
  (m ≫= k) w
  = match m w with
    | (Return a, w') => k a w'
    | (Raise e, w') => (Raise e, w')
    end.
Proof. reflexivity. Qed.

Lemma foldl_alter {A : Type} (g : A -> list File -> list File) (rin : string)
    (l : list A) (m : gmap string (list File)) :
  foldl (fun m x => alter (g x) rin m) m l
  = alter (fun d => foldl (fun d x => g x d) d l) rin m.
Proof.
  revert m. induction l as [|x l IH]; intros m; simpl.
  - symmetry. by apply alter_id.
  - rewrite IH. apply alter_alter_eq.
Qed.

(** One turn of the loop of [cleanup_old_files]: the entry goes and the
    deletion is reported, or [unlink] raises, the entry stays and the error
    is reported. *)
Lemma unlink_guarded (env : Env) (rin : string) (file_path : File)
    (w : World) :
  try_except
    (unlink env rin (name file_path) ;;
     print (DeletedOldFile (name file_path)))
    (fun e => print (ErrorDeleting (name file_path) e)) w
  = (Return tt,
     {| files := alter (fun d => if unlink_fails env (name file_path) then d
                                 else remove_entry (name file_path) d)
                       rin (files w);
        output := output w
                  ++ [Print (if unlink_fails env (name file_path)
                             then ErrorDeleting (name file_path)
                                    (OSError (name file_path))
                             else DeletedOldFile (name file_path))] |}).
Proof.
  unfold try_except. rewrite run_bind. unfold unlink.
  destruct (unlink_fails env (name file_path)); simpl.
  - unfold print, emit. simpl. by rewrite alter_id.
  - reflexivity.
Qed.

Lemma for_each_unlink (env : Env) (rin : string) (l : list File) (w : World) :
  for_each l (fun file_path =>
      try_except
        (unlink env rin (name file_path) ;;
         print (DeletedOldFile (name file_path)))
        (fun e => print (ErrorDeleting (name file_path) e))) w
  = (Return tt,
     {| files := foldl (fun m f =>
                   alter (fun d => if unlink_fails env (name f) then d
                                   else remove_entry (name f) d) rin m)
                       (files w) l;
        output := output w
                  ++ map (fun f =>
                       Print (if unlink_fails env (name f)
                              then ErrorDeleting (name f) (OSError (name f))
                              else DeletedOldFile (name f))) l |}).
Proof.
  revert w. induction l as [|f l IH]; intros w; simpl.
  - rewrite app_nil_r. by rewrite world_eta.
  - rewrite run_bind. rewrite unlink_guarded. rewrite IH. simpl.
    by rewrite <- app_assoc.
Qed.

Lemma cleanup_missing (env : Env) (rin : string) (keep : Z) (w : World) :
  files w !! rin = None ->
  cleanup_old_files env rin keep w = (Return tt, w).
Proof.
  intros Hdir. unfold cleanup_old_files. rewrite run_bind.
  unfold get_files. by rewrite Hdir.
Qed.

Lemma cleanup_present (env : Env) (rin : string) (keep : Z) (w : World)
    (d : list File) :
  files w !! rin = Some d ->
  cleanup_old_files env rin keep w
  = (Return tt,
     {| files := <[rin := sweep env keep d]> (files w);
        output := output w ++ deletions env keep d |}).
Proof.
  intros Hdir. unfold cleanup_old_files. rewrite run_bind.
  unfold get_files. rewrite Hdir. rewrite for_each_unlink. f_equal. f_equal.
  rewrite (foldl_alter
             (fun f d => if unlink_fails env (name f) then d
                         else remove_entry (name f) d)).
  apply map_eq. intros i. rewrite lookup_alter, lookup_insert.
  destruct (decide (rin = i)) as [->|]; [|done].
  by rewrite Hdir.
Qed.

(** [save_rin_xml] is one write followed by one sweep of the directory of
    the identifier; the other directories are left alone. *)
Lemma save_rin_xml_spec (self : RINMonitor) (env : Env)
    (rin pubid content : string) (w : World) :
  let d := write_entry (written env rin pubid content) (snapshots w rin) in
  save_rin_xml self env rin pubid content w
  = (Return (snapshot_name rin pubid (now env)),
     {| files := <[rin := sweep env (keep_count self) d]> (files w);
        output := output w ++ deletions env (keep_count self) d |}).
Proof.
  intros d. unfold save_rin_xml. rewrite run_bind.
  unfold mkdir at 1, modify_files at 1. rewrite run_bind.
  unfold write_text at 1, modify_files at 1. rewrite run_bind. simpl.
  set (f := {| name := snapshot_name rin pubid (now env);
               st_mtime := mtime_now env; text := content |}).
  set (fs1 := match files w !! rin with
              | Some _ => files w
              | None => <[rin:=[]]> (files w)
              end).
  assert (Hlook : alter (write_entry f) rin fs1 !! rin = Some d).
  { rewrite lookup_alter. rewrite decide_True by done.
    subst fs1 d. unfold snapshots.
    destruct (files w !! rin) as [d0|] eqn:Hd.
    - by rewrite Hd.
    - by rewrite lookup_insert_eq. }
  rewrite (cleanup_present env rin _ _ d) by exact Hlook.
  simpl. f_equal. f_equal.
  apply map_eq. intros i.
  destruct (decide (rin = i)) as [->|Hne].
  - by rewrite !lookup_insert_eq.
  - rewrite !lookup_insert_ne by done. rewrite lookup_alter_ne by done.
    subst fs1. destruct (files w !! rin); [done|].
    by rewrite lookup_insert_ne.
Qed.

Lemma save_rin_xml_snapshots (self : RINMonitor) (env : Env)
    (rin pubid content : string) (w : World) :
  snapshots (save_rin_xml self env rin pubid content w).2 rin
  = sweep env (keep_count self)
      (write_entry (written env rin pubid content) (snapshots w rin)).
Proof.
  rewrite save_rin_xml_spec. unfold snapshots at 1. simpl.
  by rewrite lookup_insert_eq.
Qed.

Lemma save_each_snoc (self : RINMonitor) (rin : string)
    (cycles : list Cycle) (c : Cycle) (w : World) :
  (save_each self rin (cycles ++ [c]) w).2
  = (save_rin_xml self (at_env c) rin (batch c) (content c)
       (save_each self rin cycles w).2).2.
Proof.
  revert w. induction cycles as [|c0 cycles IH]; intros w; simpl.
  - rewrite run_bind. by rewrite !save_rin_xml_spec.
  - rewrite !run_bind. rewrite save_rin_xml_spec. apply IH.
Qed.

End Store.

(** ** The retention sweep on one directory *)

Lemma map_fmap {A B : Type} (f : A -> B) (l : list A) : map f l = f <$> l.
Proof. reflexivity. Qed.

Lemma filter_all {A : Type} (P : A -> Prop) `{!forall x, Decision (P x)}
    (l : list A) :
  (forall x, x ∈ l -> P x) -> filter P l = l.
Proof.
  induction l as [|x l IH]; intros Hall; [done|].
  rewrite filter_cons_True by (apply Hall; left).
  f_equal. apply IH. intros y Hy. apply Hall. by right.
Qed.

Lemma filter_none {A : Type} (P : A -> Prop) `{!forall x, Decision (P x)}
    (l : list A) :
  (forall x, x ∈ l -> ~ P x) -> filter P l = [].
Proof.
  induction l as [|x l IH]; intros Hnone; [done|].
  rewrite filter_cons_False by (apply Hnone; left).
  apply IH. intros y Hy. apply Hnone. by right.
Qed.

Lemma foldl_remove_entry (fails : string -> bool) (l d : list File) :
  foldl (fun d f => if fails (name f) then d else remove_entry (name f) d) d l
  = filter (fun g =>
      name g ∉ map name (filter (fun f => fails (name f) = false) l)) d.
Proof.
  revert d. induction l as [|x l IH]; intros d; simpl.
  - symmetry. apply filter_all. intros g _. apply not_elem_of_nil.
  - rewrite IH. destruct (fails (name x)) eqn:Hx.
    + by rewrite filter_cons_False by congruence.
    + rewrite filter_cons_True by done. simpl.
      unfold remove_entry. rewrite list_filter_filter.
      apply list_filter_iff. intros g. rewrite not_elem_of_cons. tauto.
Qed.

Lemma filter_ext_elem {A : Type} (P Q : A -> Prop)
    `{!forall x, Decision (P x)} `{!forall x, Decision (Q x)} (l : list A) :
  (forall x, x ∈ l -> P x <-> Q x) -> filter P l = filter Q l.
Proof.
  induction l as [|x l IH]; intros Hiff; [done|].
  assert (IH' : filter P l = filter Q l).
  { apply IH. intros y Hy. apply Hiff. by right. }
  destruct (decide (P x)) as [Hp|Hp].
  - rewrite !filter_cons_True; [by rewrite IH'| |done].
    apply Hiff; [by left|done].
  - rewrite !filter_cons_False; [done| |done].
    intros Hq. apply Hp. apply Hiff; [by left|done].
Qed.

(** Filtering out the names of a suffix leaves the prefix. *)
Lemma filter_keeps_prefix (a b : list File) :
  NoDup (map name (a ++ b)%list) ->
  filter (fun g => name g ∉ map name b) (a ++ b)%list = a.
Proof.
  rewrite map_app, !map_fmap, NoDup_app. intros (_ & Hdisj & _).
  rewrite filter_app.
  rewrite (filter_all _ a), (filter_none _ b); [by rewrite app_nil_r| |].
  - intros g Hg Hn. apply Hn. by apply list_elem_of_fmap_2.
  - intros g Hg. apply Hdisj. by apply list_elem_of_fmap_2.
Qed.

(** In a list that is strictly ascending in the modification time, the
    time identifies the entry. *)
Lemma older_sorted_inj (l : list File) (f g : File) :
  StronglySorted older l -> f ∈ l -> g ∈ l -> st_mtime f = st_mtime g -> f = g.
Proof.
  induction 1 as [|x l Hl IH Hx]; intros Hf Hg Heq.
  - by apply elem_of_nil in Hf.
  - rewrite Forall_forall in Hx. unfold older in Hx.
    apply elem_of_cons in Hf as [->|Hf]; apply elem_of_cons in Hg as [->|Hg];
      auto.
    + specialize (Hx _ Hg). lia.
    + specialize (Hx _ Hf). lia.
Qed.

Lemma older_sorted_reverse (l : list File) :
  StronglySorted older l ->
  StronglySorted (descending mtime_le) (reverse l).
Proof.
  induction 1 as [|x l Hl IH Hx].
  - constructor.
  - rewrite reverse_cons. apply StronglySorted_app_2; [|done|repeat constructor].
    intros y z Hy Hz. rewrite elem_of_reverse in Hy.
    apply list_elem_of_singleton in Hz as ->.
    rewrite Forall_forall in Hx. specialize (Hx _ Hy).
    unfold descending, mtime_le, older in *. lia.
Qed.

Lemma same_name_same_entry (d : list File) (f g : File) :
  NoDup (map name d) -> f ∈ d -> g ∈ d -> name f = name g -> f = g.
Proof.
  induction d as [|x d IH]; intros Hnd Hf Hg Hname.
  - by apply elem_of_nil in Hf.
  - simpl in Hnd. apply NoDup_cons in Hnd as [Hx Hnd].
    rewrite map_fmap in Hx.
    apply elem_of_cons in Hf as [->|Hf]; apply elem_of_cons in Hg as [->|Hg];
      auto.
    + exfalso. apply Hx. rewrite Hname. by apply list_elem_of_fmap_2.
    + exfalso. apply Hx. rewrite <- Hname. by apply list_elem_of_fmap_2.
Qed.

Section Sweep.
Context `{Library} `{!GlobContract}.

Lemma sorted_by_mtime_perm (d : list File) :
  Py.sorted_reverse mtime_le (glob_order d) ≡ₚ d.
Proof. by rewrite sorted_reverse_perm, glob_order_perm. Qed.

(** The sweep leaves the entries whose name is not the name of a removed
    file. *)
Lemma sweep_as_filter (env : Env) (keep : Z) (d : list File) :
  sweep env keep d
  = filter (fun g => name g ∉ map name (removed env keep d)) d.
Proof. apply (foldl_remove_entry (unlink_fails env)). Qed.

Lemma removed_all (env : Env) (keep : Z) (d : list File) :
  unlink_succeeds env -> removed env keep d = files_to_delete keep d.
Proof. intros Hok. apply filter_all. intros f _. apply Hok. Qed.

Lemma sweep_sublist (env : Env) (keep : Z) (d : list File) :
  sweep env keep d `sublist_of` d.
Proof. rewrite sweep_as_filter. apply sublist_filter. Qed.

Lemma sweep_names (env : Env) (keep : Z) (d : list File) :
  NoDup (map name d) -> NoDup (map name (sweep env keep d)).
Proof.
  intros Hnames. rewrite !map_fmap.
  apply (sublist_NoDup _ (name <$> d)); [by rewrite <- map_fmap|].
  apply fmap_sublist, sweep_sublist.
Qed.

(** The selected files are the tail of the listing by modification time,
    from the position that the retention count gives. *)
Lemma files_to_delete_drop (keep : Z) (d : list File) :
  exists m,
    files_to_delete keep d
    = drop m (Py.sorted_reverse mtime_le (glob_order d))
    /\ Nat.min m (length d) = left_by_sweep keep (length d).
Proof.
  unfold files_to_delete, Py.slice_from, left_by_sweep.
  assert (Hlen : length (Py.sorted_reverse mtime_le (glob_order d))
                 = length d).
  { apply Permutation_length, sorted_by_mtime_perm. }
  rewrite Hlen. destruct (0 <=? keep) eqn:Hsign.
  - eexists. split; [done|]. done.
  - eexists. split; [done|]. apply Z.leb_gt in Hsign. lia.
Qed.

(** An entry that the sweep leaves although [unlink] would have removed it
    was not selected. *)
Lemma sweep_left (env : Env) (keep : Z) (d : list File) (f : File) :
  f ∈ sweep env keep d -> unlink_fails env (name f) = false ->
  f ∉ files_to_delete keep d.
Proof.
  intros Hf Hok Hsel. rewrite sweep_as_filter in Hf.
  apply list_elem_of_filter in Hf as [Hn Hf].
  apply Hn. rewrite map_fmap. apply list_elem_of_fmap_2.
  unfold removed. by apply list_elem_of_filter.
Qed.

(** An entry that the sweep removed was selected. *)
Lemma sweep_gone (env : Env) (keep : Z) (d : list File) (g : File) :
  NoDup (map name d) ->
  g ∈ d -> g ∉ sweep env keep d -> g ∈ files_to_delete keep d.
Proof.
  intros Hnames Hg Hng. rewrite sweep_as_filter in Hng.
  destruct (decide (name g ∈ map name (removed env keep d))) as [Hin|Hout].
  - rewrite map_fmap in Hin. apply list_elem_of_fmap in Hin as (f & Hname & Hf).
    unfold removed in Hf. apply list_elem_of_filter in Hf as [_ Hf].
    assert (f ∈ d) as Hfd.
    { unfold files_to_delete in Hf.
      destruct (files_to_delete_drop keep d) as (m & Hdel & _).
      unfold files_to_delete in Hdel. rewrite Hdel in Hf.
      apply subseteq_drop in Hf. by rewrite sorted_by_mtime_perm in Hf. }
    by rewrite <- (same_name_same_entry d f g Hnames Hfd Hg (eq_sym Hname)).
  - exfalso. apply Hng. by apply list_elem_of_filter.
Qed.

(** When no deletion fails, the sweep leaves the head of the listing. *)
Lemma sweep_take (env : Env) (keep : Z) (d : list File) (m : nat) :
  unlink_succeeds env ->
  NoDup (map name d) ->
  files_to_delete keep d
  = drop m (Py.sorted_reverse mtime_le (glob_order d)) ->
  sweep env keep d ≡ₚ take m (Py.sorted_reverse mtime_le (glob_order d)).
Proof.
  intros Hok Hnames Hdel. rewrite sweep_as_filter, removed_all, Hdel by done.
  set (sorted := Py.sorted_reverse mtime_le (glob_order d)).
  assert (Hperm : sorted ≡ₚ d) by apply sorted_by_mtime_perm.
  transitivity (filter (fun g => name g ∉ map name (drop m sorted)) sorted).
  { by apply filter_Permutation. }
  pose proof (filter_keeps_prefix (take m sorted) (drop m sorted)) as Hkeep.
  rewrite take_drop in Hkeep. rewrite Hkeep; [done|].
  rewrite map_fmap, Hperm. by rewrite <- map_fmap.
Qed.

Lemma sweep_count (env : Env) (keep : Z) (d : list File) :
  unlink_succeeds env ->
  NoDup (map name d) ->
  length (sweep env keep d) = left_by_sweep keep (length d).
Proof.
  intros Hok Hnames. destruct (files_to_delete_drop keep d) as (m & Hdel & Hm).
  rewrite (sweep_take env keep d m Hok Hnames Hdel), length_take, <- Hm.
  f_equal. apply Permutation_length, sorted_by_mtime_perm.
Qed.

(** Whatever deletion fails, an entry that is gone is not newer than an
    entry that was left and could have been removed. *)
Lemma sweep_most_recent (env : Env) (keep : Z) (d : list File) (f g : File) :
  NoDup (map name d) ->
  f ∈ sweep env keep d -> unlink_fails env (name f) = false ->
  g ∈ d -> g ∉ sweep env keep d ->
  st_mtime g <= st_mtime f.
Proof.
  intros Hnames Hf Hok Hg Hng.
  destruct (files_to_delete_drop keep d) as (m & Hdel & _).
  pose proof (sweep_left env keep d f Hf Hok) as Hf'.
  pose proof (sweep_gone env keep d g Hnames Hg Hng) as Hg'.
  rewrite Hdel in Hf', Hg'.
  set (sorted := Py.sorted_reverse mtime_le (glob_order d)) in *.
  assert (Hsorted : StronglySorted (descending mtime_le)
                      (take m sorted ++ drop m sorted)%list).
  { rewrite take_drop. subst sorted.
    apply sorted_reverse_sorted; [apply mtime_le_total|apply mtime_le_trans]. }
  assert (Hf'' : f ∈ take m sorted).
  { assert (f ∈ (take m sorted ++ drop m sorted)%list) as Hin.
    { rewrite take_drop. subst sorted. rewrite sorted_by_mtime_perm.
      by apply (elem_of_sublist _ _ _ Hf (sweep_sublist env keep d)). }
    apply elem_of_app in Hin as [?|?]; done. }
  pose proof (StronglySorted_app_1_elem_of _ _ _ f g Hsorted Hf'' Hg') as Hd.
  unfold descending, mtime_le in Hd. lia.
Qed.

(** The listing, sorted by modification time, of a directory whose entries
    have pairwise different times: the entries from the newest to the
    oldest, whatever the order of the listing. *)
Lemma sorted_listing (d D : list File) :
  StronglySorted older D -> d ≡ₚ D ->
  Py.sorted_reverse mtime_le (glob_order d) = reverse D.
Proof.
  intros Hsorted Hperm.
  assert (Hp : Py.sorted_reverse mtime_le (glob_order d) ≡ₚ reverse D).
  { rewrite sorted_by_mtime_perm, Hperm. by rewrite reverse_Permutation. }
  apply (StronglySorted_unique_strong (descending mtime_le)); [| | |done].
  - intros x1 x2 H1 H2 H12 H21.
    apply (older_sorted_inj D); [done| | |].
    + rewrite Hp in H1. by rewrite elem_of_reverse in H1.
    + by rewrite elem_of_reverse in H2.
    + unfold descending, mtime_le in *. lia.
  - apply sorted_reverse_sorted; [apply mtime_le_total|apply mtime_le_trans].
  - by apply older_sorted_reverse.
Qed.

(** When no deletion fails, the sweep keeps the [keep] newest entries. *)
Lemma sweep_keeps_newest (env : Env) (keep : nat) (d D : list File) :
  unlink_succeeds env ->
  StronglySorted older D -> NoDup (map name D) -> d ≡ₚ D ->
  sweep env (Z.of_nat keep) d ≡ₚ last_n keep D.
Proof.
  intros Hok Hsorted Hnames Hperm.
  rewrite sweep_as_filter, removed_all by done. unfold files_to_delete.
  rewrite slice_from_nonneg by lia. rewrite Nat2Z.id.
  rewrite (sorted_listing d D) by done.
  rewrite Hperm.
  transitivity (filter (fun g => name g ∉ map name (drop keep (reverse D)))
                       (reverse D)).
  { apply filter_Permutation. by rewrite reverse_Permutation. }
  pose proof (filter_keeps_prefix (take keep (reverse D))
                (drop keep (reverse D))) as Hkeep.
  rewrite take_drop in Hkeep. rewrite Hkeep.
  - rewrite take_reverse. by rewrite reverse_Permutation.
  - rewrite map_fmap, fmap_reverse, reverse_Permutation.
    by rewrite <- map_fmap.
Qed.

(** With a retention count of zero every entry is selected: the sweep
    leaves the entries on which [unlink] fails. *)
Lemma sweep_zero (env : Env) (d : list File) :
  sweep env 0 d = filter (fun g => unlink_fails env (name g) = true) d.
Proof.
  rewrite sweep_as_filter. apply filter_ext_elem. intros g Hg.
  assert (Hall : forall f, f ∈ files_to_delete 0 d <-> f ∈ d).
  { intros f. unfold files_to_delete. rewrite slice_from_nonneg by lia.
    simpl. by rewrite sorted_by_mtime_perm. }
  split.
  - intros Hn. destruct (unlink_fails env (name g)) eqn:Hfail; [done|].
    exfalso. apply Hn. rewrite map_fmap. apply list_elem_of_fmap_2.
    unfold removed. apply list_elem_of_filter. split; [done|]. by apply Hall.
  - intros Hfail Hin. rewrite map_fmap in Hin.
    apply list_elem_of_fmap in Hin as (f & Hname & Hf).
    unfold removed in Hf. apply list_elem_of_filter in Hf as [Hok _].
    congruence.
Qed.

Lemma sweep_zero_empty (env : Env) (d : list File) :
  unlink_succeeds env -> sweep env 0 d = [].
Proof.
  intros Hok. rewrite sweep_zero. apply filter_none.
  intros g _. rewrite Hok. discriminate.
Qed.

End Sweep.

(** ** Retention over a sequence of write-and-sweep cycles *)

Section Retention.
Context `{Library} `{!GlobContract}.

Lemma write_entry_fresh (f : File) (d : list File) :
  name f ∉ map name d -> write_entry f d = (d ++ [f])%list.
Proof. intros Hfresh. unfold write_entry. by rewrite bool_decide_eq_false_2. Qed.

Lemma last_n_elem {A : Type} (n : nat) (l : list A) (x : A) :
  x ∈ last_n n l -> x ∈ l.
Proof. apply subseteq_drop. Qed.

Lemma last_n_sorted (n : nat) (l : list File) :
  StronglySorted older l -> StronglySorted older (last_n n l).
Proof.
  intros Hl. unfold last_n.
  rewrite <- (take_drop (length l - n) l) in Hl.
  by apply StronglySorted_app_1_r in Hl.
Qed.

Lemma last_n_names (n : nat) (l : list File) :
  NoDup (map name l) -> NoDup (map name (last_n n l)).
Proof.
  intros Hl. unfold last_n.
  rewrite <- (take_drop (length l - n) l), map_app in Hl.
  by apply NoDup_app in Hl as (_ & _ & Hl).
Qed.

Lemma write_entry_names (f : File) (d : list File) :
  NoDup (map name d) -> NoDup (map name (write_entry f d)).
Proof.
  intros Hnd. unfold write_entry. case_bool_decide as Hin.
  - assert (Hsame : map name
      (map (fun g => if String.eqb (name g) (name f) then f else g) d)
      = map name d).
    { clear. induction d as [|g d IH]; [done|]. simpl. rewrite IH. f_equal.
      destruct (String.eqb_spec (name g) (name f)); done. }
    by rewrite Hsame.
  - rewrite map_app. simpl. apply NoDup_app. split; [done|].
    split; [|apply NoDup_singleton].
    intros x Hx Hx'. apply list_elem_of_singleton in Hx' as ->. done.
Qed.

Lemma write_entry_length (f : File) (d : list File) :
  (1 <= length (write_entry f d))%nat.
Proof.
  unfold write_entry. case_bool_decide as Hin.
  - rewrite length_map. destruct d; [by apply elem_of_nil in Hin|simpl; lia].
  - rewrite length_app. simpl. lia.
Qed.

(** However the clock runs: after cycles that write files of pairwise
    different names and whose deletions succeed, the directory holds as
    many files as the count allows, all of them written by the cycles. *)
Lemma count_after_cycles (self : RINMonitor) (rin : string)
    (cycles : list Cycle) (w0 : World) :
  0 <= keep_count self ->
  snapshots w0 rin = [] ->
  NoDup (map name (map (cycle_file rin) cycles)) ->
  Forall (fun c => unlink_succeeds (at_env c)) cycles ->
  let prev := snapshots (save_each self rin cycles w0).2 rin in
  length prev = Nat.min (Z.to_nat (keep_count self)) (length cycles)
  /\ NoDup (map name prev)
  /\ forall f, f ∈ prev -> f ∈ map (cycle_file rin) cycles.
Proof.
  intros Hkeep Hempty.
  induction cycles as [|c cycles IH] using rev_ind; intros Hnames Hok prev.
  - subst prev. simpl. rewrite Hempty. split; [simpl; lia|].
    split; [constructor|]. intros f Hf. by apply elem_of_nil in Hf.
  - rewrite map_app in Hnames. simpl in Hnames.
    rewrite map_app in Hnames. simpl in Hnames.
    pose proof Hnames as Hnames'.
    apply NoDup_app in Hnames' as (Hn1 & Hn2 & _).
    apply Forall_app in Hok as [Hok1 Hokc].
    rewrite Forall_singleton in Hokc.
    destruct (IH Hn1 Hok1) as (IHlen & IHnames & IHelem).
    subst prev. rewrite save_each_snoc, save_rin_xml_snapshots.
    set (prev := snapshots (save_each self rin cycles w0).2 rin) in *.
    fold (cycle_file rin c).
    assert (Hfresh : name (cycle_file rin c) ∉ map name prev).
    { rewrite map_fmap. intros Hin.
      apply list_elem_of_fmap in Hin as (g & Hg & Hin).
      apply IHelem in Hin.
      apply (Hn2 (name g)).
      - rewrite map_fmap. by apply list_elem_of_fmap_2.
      - rewrite <- Hg. by left. }
    rewrite write_entry_fresh by done.
    assert (Hnames1 : NoDup (map name (prev ++ [cycle_file rin c])%list)).
    { rewrite <- write_entry_fresh by done. by apply write_entry_names. }
    split; [|split].
    + rewrite (sweep_count _ _ _ Hokc Hnames1). unfold left_by_sweep.
      rewrite (proj2 (Z.leb_le 0 _) Hkeep).
      rewrite !length_app, IHlen. simpl. lia.
    + by apply sweep_names.
    + intros f Hf.
      pose proof (elem_of_sublist _ _ _ Hf (sweep_sublist _ _ _)) as Hf'.
      rewrite map_app. simpl.
      apply elem_of_app in Hf' as [Hf'|Hf']; apply elem_of_app; auto.
Qed.

(** After cycles with strictly increasing modification times, the directory
    holds the last [keep] written files. *)
Lemma retained_after_cycles (self : RINMonitor) (rin : string)
    (cycles : list Cycle) (w0 : World) :
  0 <= keep_count self ->
  snapshots w0 rin = [] ->
  NoDup (map name (map (cycle_file rin) cycles)) ->
  Forall (fun c => unlink_succeeds (at_env c)) cycles ->
  StronglySorted older (map (cycle_file rin) cycles) ->
  snapshots (save_each self rin cycles w0).2 rin
  ≡ₚ last_n (Z.to_nat (keep_count self)) (map (cycle_file rin) cycles).
Proof.
  intros Hkeep Hempty.
  induction cycles as [|c cycles IH] using rev_ind; intros Hnames Hok Hsorted.
  - simpl. by rewrite Hempty.
  - rewrite map_app in Hnames, Hsorted. simpl in Hnames, Hsorted.
    rewrite map_app in Hnames. simpl in Hnames.
    pose proof Hnames as Hnames'.
    apply NoDup_app in Hnames' as (Hn1 & Hn2 & _).
    pose proof Hsorted as Hsorted'.
    apply StronglySorted_app in Hsorted' as (Hs2 & Hs1 & _).
    apply Forall_app in Hok as [Hok1 Hokc].
    rewrite Forall_singleton in Hokc.
    specialize (IH Hn1 Hok1 Hs1).
    rewrite save_each_snoc, save_rin_xml_snapshots.
    set (prev := snapshots (save_each self rin cycles w0).2 rin) in *.
    set (F := map (cycle_file rin) cycles) in *.
    set (keep := Z.to_nat (keep_count self)) in *.
    fold (cycle_file rin c).
    assert (Hfresh : name (cycle_file rin c) ∉ map name prev).
    { rewrite map_fmap, IH. intros Hin.
      apply list_elem_of_fmap in Hin as (g & Hg & Hin).
      apply last_n_elem in Hin.
      apply (Hn2 (name g)).
      - rewrite map_fmap. by apply list_elem_of_fmap_2.
      - rewrite <- Hg. by left. }
    rewrite write_entry_fresh by done.
    rewrite map_app. simpl. rewrite <- last_n_snoc.
    replace (keep_count self) with (Z.of_nat keep) by (subst keep; lia).
    apply sweep_keeps_newest; [done| | |].
    + apply StronglySorted_app_2; [|by apply last_n_sorted|repeat constructor].
      intros x1 x2 Hx1 Hx2. apply Hs2; [|done]. by apply last_n_elem in Hx1.
    + rewrite map_app. simpl. apply NoDup_app. split; [by apply last_n_names|].
      split; [|apply NoDup_singleton].
      intros x Hx. apply Hn2.
      rewrite map_fmap in *. apply list_elem_of_fmap in Hx as (g & -> & Hg).
      apply list_elem_of_fmap_2. by apply last_n_elem in Hg.
    + by rewrite IH.
Qed.

(** C1, as amended.  For write-and-sweep cycles on one identifier that start
    from no snapshot, write files of pairwise different names and whose
    deletions all succeed, under a retention count that is not negative:
    however the clock runs, the number of retained records is the minimum of
    the count and the number of writes; and when the modification times
    increase strictly from write to write, the retained records are the most
    recently written ones. *)
Theorem retention_invariant (self : RINMonitor) (rin : string)
    (cycles : list Cycle) (w0 : World) :
  0 <= keep_count self ->
  snapshots w0 rin = [] ->
  NoDup (map name (map (cycle_file rin) cycles)) ->
  Forall (fun c => unlink_succeeds (at_env c)) cycles ->
  let w := (save_each self rin cycles w0).2 in
  let keep := Z.to_nat (keep_count self) in
  length (snapshots w rin) = Nat.min keep (length cycles)
  /\ (StronglySorted older (map (cycle_file rin) cycles) ->
      snapshots w rin ≡ₚ last_n keep (map (cycle_file rin) cycles)).
Proof.
  intros Hkeep Hempty Hnames Hok w keep. split.
  - by apply count_after_cycles.
  - intros Hsorted. by apply retained_after_cycles.
Qed.

End Retention.

(** ** Running the change detector *)

Section Detector.
Context `{Library}.

Lemma print_run (m : message) (w : World) :
  print m w = (Return tt, say w [Print m]).
Proof. reflexivity. Qed.

Lemma emit_run (e : event) (w : World) : emit e w = (Return tt, say w [e]).
Proof. reflexivity. Qed.

Lemma say_say (w : World) (e1 e2 : list event) :
  say (say w e1) e2 = say w (e1 ++ e2).
Proof. unfold say. simpl. by rewrite app_assoc. Qed.

Lemma save_rin_xml_run (self : RINMonitor) (env : Env)
    (rin pubid content : string) (w : World) :
  save_rin_xml self env rin pubid content w
  = (Return (snapshot_name rin pubid (now env)),
     saved self env rin pubid content w).
Proof. apply save_rin_xml_spec. Qed.

Lemma get_available_agendas_ok (env : Env) (w : World) (p : string)
    (rest : list string) :
  scraped env = p :: rest ->
  get_available_agendas env w = (Return (p :: rest), w).
Proof.
  unfold scraped, get_available_agendas, try_except, http_get_catalog.
  destruct (catalog env) as [e|hrefs]; [discriminate|].
  intros Hs. rewrite run_bind. simpl.
  destruct (foldl add_pubid [] hrefs) as [|q pubids] eqn:Hfold.
  - discriminate.
  - unfold ret. by rewrite Hs.
Qed.

Lemma get_available_agendas_fails (env : Env) (w : World) :
  scraped env = [] ->
  exists e,
    get_available_agendas env w
    = (Raise (AttributeError "RINMonitor" "generate_default_pubids"),
       say w [Print (CouldNotPing e)]).
Proof.
  unfold scraped, get_available_agendas, try_except, http_get_catalog.
  destruct (catalog env) as [e|hrefs].
  - intros _. exists (RequestException e). reflexivity.
  - intros Hs. apply sorted_reverse_nil in Hs.
    exists (AttributeError "RINMonitor" "generate_default_pubids").
    rewrite run_bind. simpl. by rewrite Hs.
Qed.

Lemma get_latest_run (rin : string) (w : World) :
  get_latest_file_for_rin rin w
  = (Return (latest_lookup (files w !! rin)), w).
Proof.
  unfold get_latest_file_for_rin, latest_lookup. rewrite run_bind.
  unfold get_files.
  destruct (files w !! rin) as [d|]; [|done].
  destruct (Py.sorted_reverse name_le (glob_order d)) as [|f l]; [done|].
  by destruct (Py.search pubid_in_name (name f)).
Qed.

Lemma send_email_run (self : RINMonitor) (env : Env) (rin : string)
    (old_pubid : option string) (new_pubid diff_text old_file new_file : string)
    (w : World) :
  let d := delivery self env rin old_pubid new_pubid diff_text in
  send_email_notification self env rin old_pubid new_pubid diff_text
    old_file new_file w
  = (d.1,
     say w (Notifier rin old_pubid new_pubid diff_text old_file new_file
            :: d.2)).
Proof.
  unfold send_email_notification, delivery, credentials_set.
  generalize (Text.take 5000 diff_text). intros preview.
  rewrite run_bind, emit_run.
  destruct (email (config self)) as [smtp_config|]; [|done].
  rewrite run_bind. simpl.
  destruct (truthy (username smtp_config)); simpl;
    [|rewrite run_bind, print_run; unfold ret; by rewrite say_say].
  destruct (truthy (password smtp_config)); simpl;
    [|rewrite run_bind, print_run; unfold ret; by rewrite say_say].
  destruct (from_address smtp_config) as [msg_from|]; [|done].
  rewrite run_bind. simpl.
  destruct (to_address smtp_config) as [msg_to|]; [|done].
  rewrite run_bind. simpl. unfold try_except. rewrite run_bind.
  destruct (smtp_server smtp_config) as [server|]; simpl;
    [|rewrite run_bind, print_run; unfold ret; by rewrite say_say].
  rewrite run_bind.
  destruct (smtp_port smtp_config) as [port|]; simpl;
    [|rewrite run_bind, print_run; unfold ret; by rewrite say_say].
  rewrite run_bind.
  destruct (smtp_delivers env); simpl.
  - unfold say. simpl. by rewrite <- !app_assoc.
  - rewrite run_bind, print_run. unfold ret. by rewrite say_say.
Qed.

(** The notifier ends normally exactly when the configuration has the keys
    that it subscripts outside its [try] block; else it raises [KeyError]. *)
Lemma delivery_ready (self : RINMonitor) (env : Env) (rin : string)
    (old_pubid : option string) (new_pubid diff_text : string) :
  let d := delivery self env rin old_pubid new_pubid diff_text in
  (notifier_ready (config self) = true -> exists delivered, d.1 = Return delivered)
  /\ (notifier_ready (config self) = false -> exists key, d.1 = Raise (KeyError key)).
Proof.
  unfold delivery, notifier_ready.
  destruct (email (config self)) as [smtp_config|]; [|split; [done|eauto]].
  destruct (credentials_set smtp_config); simpl; [|split; [eauto|done]].
  destruct (from_address smtp_config) as [msg_from|];
    [|split; [by rewrite bool_decide_eq_false_2 by by intros []|eauto]].
  destruct (to_address smtp_config) as [msg_to|].
  - split; [|rewrite !bool_decide_eq_true_2 by eauto; done].
    intros _.
    destruct (smtp_server smtp_config), (smtp_port smtp_config),
      (smtp_delivers env); eauto.
  - split; [|eauto].
    rewrite (bool_decide_eq_false_2 (is_Some None)) by by intros [].
    by rewrite andb_false_r.
Qed.

Lemma not_found_empty : not_found "" = true.
Proof. reflexivity. Qed.

(** The pass up to the content test. *)
Lemma monitor_rin_rejects (self : RINMonitor) (env : Env) (rin : string)
    (w : World) (p : string) (rest : list string) (body : string) :
  scraped env = p :: rest ->
  response env = Some body ->
  not_found body = true ->
  monitor_rin self env rin w
  = (Return false,
     say w [Print (CheckingRIN rin); Print (LatestAgenda p);
            Print (match body with
                   | EmptyString => FailedToFetchXML
                   | String _ _ => RINNotFound p
                   end)]).
Proof.
  intros Hs Hr Hnf. unfold monitor_rin.
  rewrite run_bind, print_run, run_bind.
  rewrite (get_available_agendas_ok _ _ _ _ Hs).
  rewrite run_bind, print_run, run_bind.
  unfold fetch_rin_xml. rewrite Hr. unfold ret at 1.
  destruct body as [|c body].
  - rewrite run_bind, print_run. unfold ret. by rewrite !say_say.
  - unfold not_found in Hnf. rewrite Hnf.
    rewrite run_bind, print_run. unfold ret. by rewrite !say_say.
Qed.

(** The pass after the content test, by the three cases of the comparison. *)
Lemma monitor_rin_accepts (self : RINMonitor) (env : Env) (rin : string)
    (w : World) (p : string) (rest : list string) (body : string) :
  scraped env = p :: rest ->
  response env = Some body ->
  not_found body = false ->
  let w1 := say w [Print (CheckingRIN rin); Print (LatestAgenda p)] in
  match latest_lookup (files w !! rin) with
  | (previous_pubid, Some previous_file) =>
      let previous_xml := read_text previous_file in
      if bool_decide (get_content_hash body = get_content_hash previous_xml)
      then
        monitor_rin self env rin w
        = (Return false,
           saved self env rin p body (say w1 [Print NoChangesDetected]))
      else
        let w2 := saved self env rin p body
                    (say w1 [Print (ChangeDetected previous_pubid p)]) in
        let diff := compare_xml previous_xml body in
        let d := delivery self env rin previous_pubid p diff in
        monitor_rin self env rin w
        = (after_notifier d.1,
           say w2 (Notifier rin previous_pubid p diff (name previous_file)
                     (snapshot_name rin p (now env))
                   :: d.2))
  | (_, None) =>
      monitor_rin self env rin w
      = (Return false, saved self env rin p body (say w1 [Print (SavingBaseline p)]))
  end.
Proof.
  intros Hs Hr Hnf w1.
  assert (Hstart :
    monitor_rin self env rin w
    = (let '(previous_pubid, previous_file) := latest_lookup (files w !! rin) in
       match previous_file with
       | Some previous_file =>
           let previous_xml := read_text previous_file in
           let current_hash := get_content_hash body in
           let previous_hash := get_content_hash previous_xml in
           if negb (String.eqb current_hash previous_hash)
           then
             print (ChangeDetected previous_pubid p) ;;
             new_file ← save_rin_xml self env rin p body;
             let diff := compare_xml previous_xml body in
             send_email_notification self env rin previous_pubid
               p diff (name previous_file) new_file ;;
             ret true
           else
             print NoChangesDetected ;;
             save_rin_xml self env rin p body ;;
             ret false
       | None =>
           print (SavingBaseline p) ;;
           save_rin_xml self env rin p body ;;
           ret false
       end) w1).
  { unfold monitor_rin.
    rewrite run_bind, print_run, run_bind.
    rewrite (get_available_agendas_ok _ _ _ _ Hs).
    rewrite run_bind, print_run, run_bind.
    unfold fetch_rin_xml. rewrite Hr. unfold ret at 1.
    destruct body as [|c body]; [discriminate|].
    unfold not_found in Hnf. rewrite Hnf.
    rewrite run_bind, get_latest_run. rewrite say_say. simpl.
    by destruct (latest_lookup (files w !! rin)) as [pp [prev|]]. }
  rewrite Hstart. clear Hstart.
  destruct (latest_lookup (files w !! rin)) as [pp [prev|]].
  - simpl. case_bool_decide as Hhash.
    + rewrite Hhash, String.eqb_refl. simpl.
      rewrite run_bind, print_run, run_bind, save_rin_xml_run. done.
    + rewrite (proj2 (String.eqb_neq _ _) Hhash). simpl.
      rewrite run_bind, print_run, run_bind, save_rin_xml_run, run_bind.
      rewrite send_email_run. simpl.
      by destruct (delivery self env rin pp p
                     (compare_xml (read_text prev) body)).1.
  - rewrite run_bind, print_run, run_bind, save_rin_xml_run. done.
Qed.

End Detector.

(** ** Lines of a text *)

Lemma string_app_nil_l (s : string) : "" ++ s = s.
Proof. reflexivity. Qed.

Lemma string_app_cons (c : ascii) (s t : string) :
  String c s ++ t = String c (s ++ t).
Proof. reflexivity. Qed.


Lemma string_app_assoc (s t u : string) : s ++ t ++ u = (s ++ t) ++ u.
Proof.
  induction s as [|c s IH]; [by rewrite !string_app_nil_l|].
  by rewrite !string_app_cons, IH.
Qed.







(** ** Differ *)

Section Differ.
Context `{Library} `{!DiffContract}.




End Differ.

(** ** Change detector *)

Lemma universal_newlines_no_cr (s : string) :
  no_cr s = true -> Py.universal_newlines s = s.
Proof.
  unfold no_cr. induction s as [|c s IH]; [done|].
  simpl. intros [Hc Hs]%andb_true_iff.
  apply negb_true_iff in Hc. rewrite Hc. by rewrite IH.
Qed.

Section ChangeDetector.
Context `{Library}.





(** C5, as amended.  When the fetched response passes the content test (it
    is present, does not contain the not-found marker and has at least 100
    characters), the pass has written the response to the store when it
    ends: the directory of the identifier is the old one after one write
    of the response and one sweep, and no other directory changed.  This
    holds alike with a changed, an unchanged and no previous snapshot.  The
    pass ends normally, or, after the write, with the [KeyError] of a
    notifier whose configuration keys are missing. *)
Theorem snapshot_written_on_accepted_fetch (self : RINMonitor) (env : Env)
    (rin : string) (w : World) (p : string) (rest : list string)
    (body : string) :
  scraped env = p :: rest ->
  response env = Some body ->
  not_found body = false ->
  let r := monitor_rin self env rin w in
  files r.2
  = <[rin := sweep env (keep_count self)
               (write_entry (written env rin p body) (snapshots w rin))]>
    (files w)
  /\ ((exists changed, r.1 = Return changed)
      \/ (exists key, r.1 = Raise (KeyError key)))
  /\ (notifier_ready (config self) = true -> exists changed, r.1 = Return changed).
Proof.
  intros Hs Hr Hnf r.
  pose proof (monitor_rin_accepts self env rin w p rest body Hs Hr Hnf) as Hrun.
  subst r. simpl in Hrun.
  destruct (latest_lookup (files w !! rin)) as [pp [prev|]].
  - case_bool_decide; rewrite Hrun; [split; eauto|].
    split; [done|].
    destruct (delivery_ready self env rin pp p
                (compare_xml (read_text prev) body)) as [Hready Hmissing].
    simpl. split.
    + destruct (notifier_ready (config self)).
      * left. destruct Hready as [delivered ->]; eauto.
      * right. destruct Hmissing as [key ->]; eauto.
    + intros Hok. destruct (Hready Hok) as [delivered ->]. eauto.
  - rewrite Hrun. split; eauto.
Qed.

(** C7.  When the fetched response contains the not-found marker or is
    shorter than 100 characters, the pass ends at once with the result
    [False]: the world after it is the world before it plus three printed
    lines (so nothing is written and the notifier is not called), and the
    loop goes on with the next identifier. *)
Theorem not_found_ends_pass (self : RINMonitor) (envs : nat -> Env) (i : nat)
    (rin : string) (more : list string) (changes : Z) (w : World)
    (p : string) (rest : list string) (body : string) :
  scraped (envs i) = p :: rest ->
  response (envs i) = Some body ->
  not_found body = true ->
  let w' := say w [Print (CheckingRIN rin); Print (LatestAgenda p);
                   Print (match body with
                          | EmptyString => FailedToFetchXML
                          | String _ _ => RINNotFound p
                          end)] in
  monitor_rin self (envs i) rin w = (Return false, w')
  /\ files w' = files w
  /\ List.filter is_notifier (output w') = List.filter is_notifier (output w)
  /\ monitor_each self envs i (rin :: more) changes w
     = monitor_each self envs (S i) more changes w'.
Proof.
  intros Hs Hr Hnf w'.
  pose proof (monitor_rin_rejects self (envs i) rin w p rest body Hs Hr Hnf)
    as Hrun.
  split; [exact Hrun|]. split; [done|]. split.
  - subst w'. unfold say. simpl. rewrite List.filter_app. simpl.
    by rewrite app_nil_r.
  - simpl. rewrite run_bind, Hrun. done.
Qed.

(** C6: the code does not do what the claim says.  When the catalog request
    fails or the page yields no batch id, [get_available_agendas] turns to
    a fallback generator that the class does not define: the exception of
    the attribute lookup leaves the method, and the pass over the
    identifier with it. *)
Theorem catalog_fallback_raises (self : RINMonitor) (env : Env)
    (rin : string) (w : World) :
  scraped env = [] ->
  (get_available_agendas env w).1
  = Raise (AttributeError "RINMonitor" "generate_default_pubids")
  /\ (monitor_rin self env rin w).1
     = Raise (AttributeError "RINMonitor" "generate_default_pubids").
Proof.
  intros Hs. split.
  - by destruct (get_available_agendas_fails env w Hs) as [e ->].
  - unfold monitor_rin. rewrite run_bind, print_run, run_bind.
    by destruct (get_available_agendas_fails env
                   (say w [Print (CheckingRIN rin)]) Hs) as [e ->].
Qed.

(** C8: the code does not do what the claim says.  Without a configuration
    file, [create_default_config] builds the default dictionary but returns
    [None]; the constructor then fails on [self.config.get], and so does
    the program. *)
Theorem startup_without_config_raises (config_file : string)
    (envs : nat -> Env) (w : World) :
  rins default_config = Some [] /\ keep_files default_config = Some 2
  /\ (create_default_config w).1 = Return PyNone
  /\ (init config_file None w).1 = Raise (AttributeError "NoneType" "get")
  /\ (main None envs w).1 = Raise (AttributeError "NoneType" "get").
Proof. repeat split. Qed.

End ChangeDetector.

(** ** Latest snapshot and the zero retention count *)

Section Latest.
Context `{Library} `{!GlobContract}.

Lemma glob_order_nil : glob_order [] = [].
Proof. apply Permutation_nil. symmetry. apply glob_order_perm. Qed.

Lemma glob_order_singleton (f : File) : glob_order [f] = [f].
Proof. apply Permutation_singleton_r, glob_order_perm. Qed.

(** C4, as amended.  The lookup of the latest snapshot always answers; it
    answers no file exactly when the identifier has no snapshot; and the
    file it answers is a snapshot of the identifier whose file name is the
    greatest in the order of strings, together with the batch id read from
    that name. *)
Theorem latest_is_greatest_name (rin : string) (w : World) :
  exists previous_pubid previous_file,
    get_latest_file_for_rin rin w
    = (Return (previous_pubid, previous_file), w)
    /\ (previous_file = None <-> snapshots w rin = [])
    /\ (forall f, previous_file = Some f ->
          f ∈ snapshots w rin
          /\ (forall g, g ∈ snapshots w rin ->
                String.leb (name g) (name f) = true)
          /\ previous_pubid = Py.search pubid_in_name (name f)).
Proof.
  rewrite get_latest_run. unfold latest_lookup, snapshots.
  destruct (files w !! rin) as [d|].
  - destruct (Py.sorted_reverse name_le (glob_order d)) as [|f l] eqn:Hsort.
    + exists None, None. split; [done|]. split; [|done].
      apply sorted_reverse_nil in Hsort.
      assert (d = []) as ->; [|done].
      apply Permutation_nil. rewrite <- Hsort. apply glob_order_perm.
    + exists (Py.search pubid_in_name (name f)), (Some f).
      split; [done|].
      destruct (sorted_reverse_head name_le name_le_total name_le_trans
                  _ _ _ Hsort) as [Hin Hmax].
      split.
      * split; [discriminate|]. intros ->.
        rewrite glob_order_perm in Hin. by apply elem_of_nil in Hin.
      * intros f' [= <-]. split; [by rewrite glob_order_perm in Hin|].
        split; [|done]. intros g Hg. apply (Hmax g).
        by rewrite glob_order_perm.
  - exists None, None. by repeat split.
Qed.

(** C10, as amended.  With a retention count of zero, the sweep that
    follows a write selects every file of the identifier, the written one
    included, and leaves the files whose deletion fails.  When no deletion
    fails, no record of the identifier is left; the lookup of the latest
    snapshot then finds none, and a later pass with an accepted response is
    a baseline pass that, when its deletion succeeds, again leaves no
    record. *)
Theorem keep_zero_retains_nothing (self : RINMonitor) (env : Env)
    (rin pubid content : string) (w : World) :
  keep_files (config self) = Some 0 ->
  let d := write_entry (written env rin pubid content) (snapshots w rin) in
  let w' := (save_rin_xml self env rin pubid content w).2 in
  (forall f, f ∈ files_to_delete (keep_count self) d <-> f ∈ d)
  /\ files w' !! rin
     = Some (filter (fun g => unlink_fails env (name g) = true) d)
  /\ (unlink_succeeds env ->
      files w' !! rin = Some []
      /\ (get_latest_file_for_rin rin w').1 = Return (None, None)
      /\ forall env' p rest body,
           scraped env' = p :: rest ->
           response env' = Some body ->
           not_found body = false ->
           unlink_succeeds env' ->
           let r := monitor_rin self env' rin w' in
           r.1 = Return false
           /\ output r.2
              = (output w'
                 ++ [Print (CheckingRIN rin); Print (LatestAgenda p);
                     Print (SavingBaseline p);
                     Print (DeletedOldFile
                              (snapshot_name rin p (now env')))])%list
           /\ files r.2 !! rin = Some []).
Proof.
  intros Hzero d w'.
  assert (Hkeep : keep_count self = 0) by (unfold keep_count; by rewrite Hzero).
  assert (Hleft : files w' !! rin
                  = Some (filter (fun g => unlink_fails env (name g) = true) d)).
  { subst w'. rewrite save_rin_xml_spec. simpl. rewrite lookup_insert_eq.
    by rewrite Hkeep, sweep_zero. }
  split.
  { intros f. rewrite Hkeep. unfold files_to_delete.
    rewrite slice_from_nonneg by lia. simpl. by rewrite sorted_by_mtime_perm. }
  split; [exact Hleft|].
  intros Hok.
  assert (Hdir : files w' !! rin = Some []).
  { rewrite Hleft. f_equal. apply filter_none.
    intros g _. rewrite Hok. discriminate. }
  split; [exact Hdir|]. split.
  { rewrite get_latest_run, Hdir. simpl. by rewrite glob_order_nil. }
  intros env' p rest body Hs Hr Hnf Hok' r.
  pose proof (monitor_rin_accepts self env' rin w' p rest body Hs Hr Hnf)
    as Hrun.
  rewrite Hdir in Hrun. simpl in Hrun. rewrite glob_order_nil in Hrun.
  simpl in Hrun. subst r. rewrite Hrun. clear Hrun.
  unfold saved, snapshots. simpl. rewrite Hdir, Hkeep.
  split; [done|]. split.
  - assert (Hdel : deletions env' 0 (write_entry (written env' rin p body) [])
                   = [Print (DeletedOldFile (snapshot_name rin p (now env')))]).
    { unfold deletions, files_to_delete, write_entry. simpl.
      rewrite glob_order_singleton. simpl. by rewrite Hok'. }
    rewrite Hdel. by rewrite <- !app_assoc.
  - rewrite lookup_insert_eq. by rewrite sweep_zero_empty.
Qed.

End Latest.

(** ** The properties on the example instance *)

Module Checks.
Import Examples.

#[export] Instance library_glob : @GlobContract library.
Proof. intros d. reflexivity. Qed.

#[export] Instance library_diff : @DiffContract library.
Proof.
  split; intros; simpl; unfold whole_file_diff.
  - by rewrite bool_decide_eq_true_2.
  - rewrite bool_decide_eq_false_2 by done.
    exists (format_range 0 (length a) ++ " +" ++ format_range 0 (length b)).
    eexists. by rewrite <- !string_app_assoc.
Qed.

(** C1, as stated, fails, in each of these ways.  Two writes of one batch
    within one second have one file name, so the second replaces the first
    and one record is retained where the claim counts two.  A file whose
    deletion fails stays, so two records are retained under a count of one.
    Under a negative count no record is retained.  And with the count as
    claimed, the retained record is not the most recently written one when
    the file system gives the later file the earlier modification time, or
    both files the same: the sweep then deletes the file just written. *)
Lemma retention_claim_fails :
  let retained self cycles :=
    snapshots (save_each self rin cycles empty_world).2 rin in
  (length (retained (monitor 2) same_second) = 1%nat
   /\ Nat.min 2 (length same_second) = 2%nat)
  /\ (length (retained (monitor 1) locked_writes) = 2%nat
      /\ Nat.min 1 (length locked_writes) = 1%nat)
  /\ (length (retained (monitor (-1)) five_writes) = 0%nat
      /\ Z.min (-1) (Z.of_nat (length five_writes)) = -1)
  /\ (retained (monitor 1) mtime_goes_back
      = [cycle_file rin (cycle_at "202504" "20240101_120000" 20 "v1")]
      /\ last_n 1 (map (cycle_file rin) mtime_goes_back)
         = [cycle_file rin (cycle_at "202504" "20240101_120001" 10 "v2")])
  /\ (retained (monitor 1) same_mtime
      = [cycle_file rin (cycle_at "202504" "20240101_120000" 10 "v1")]
      /\ last_n 1 (map (cycle_file rin) same_mtime)
         = [cycle_file rin (cycle_at "202504" "20240101_120001" 10 "v2")]).
Proof. vm_compute. repeat split. Qed.

Lemma retention_invariant_witness :
  let w := (save_each (monitor 2) rin five_writes empty_world).2 in
  length (snapshots w rin) = 2%nat
  /\ snapshots w rin ≡ₚ last_n 2 (map (cycle_file rin) five_writes).
Proof.
  destruct (retention_invariant (monitor 2) rin five_writes empty_world)
    as [Hcount Hset].
  - vm_compute. discriminate.
  - reflexivity.
  - refine (bool_decide_unpack _ _). vm_compute. exact I.
  - repeat constructor.
  - split; [exact Hcount|]. apply Hset.
    repeat constructor; vm_compute; reflexivity.
Defined.

(** C4, as stated, fails: the lookup orders the snapshots by file name, so
    when the batch id of the later write is the smaller one, or the local
    clock was set back between two writes, it answers the snapshot that was
    written first and has the older modification time. *)
Lemma latest_is_not_most_recently_written :
  let w := (save_each (monitor 2) rin batch_goes_back empty_world).2 in
  let w' := (save_each (monitor 2) rin clock_goes_back empty_world).2 in
  snapshots w rin = map (cycle_file rin) batch_goes_back
  /\ (get_latest_file_for_rin rin w).1
     = Return (Some "202510",
               Some {| name := "rin_1234-AB01_202510_20251101_090000.xml";
                       st_mtime := 100; text := "v1" |})
  /\ snapshots w' rin = map (cycle_file rin) clock_goes_back
  /\ (get_latest_file_for_rin rin w').1
     = Return (Some "202504",
               Some {| name := "rin_1234-AB01_202504_20251102_013000.xml";
                       st_mtime := 100; text := "v1" |}).
Proof. vm_compute. repeat split. Qed.

Lemma latest_is_greatest_name_witness :
  exists previous_pubid previous_file,
    get_latest_file_for_rin rin baseline_world
    = (Return (previous_pubid, previous_file), baseline_world)
    /\ (previous_file = None <-> snapshots baseline_world rin = [])
    /\ (forall f, previous_file = Some f ->
          f ∈ snapshots baseline_world rin
          /\ (forall g, g ∈ snapshots baseline_world rin ->
                String.leb (name g) (name f) = true)
          /\ previous_pubid = Py.search pubid_in_name (name f)).
Proof. exact (latest_is_greatest_name rin baseline_world). Defined.

(** C5, as stated, fails: a response that is present and longer than the
    minimum but contains the words of the marker is not written. *)
Lemma marked_response_is_not_written :
  let r := monitor_rin (monitor 2) marked_pass rin empty_world in
  response marked_pass = Some marked_document
  /\ String.length marked_document = 194%nat
  /\ r.1 = Return false
  /\ files r.2 = ∅
  /\ output r.2 = [Print (CheckingRIN rin); Print (LatestAgenda "202504");
                   Print (RINNotFound "202504")].
Proof. vm_compute. repeat split. Qed.

Lemma snapshot_written_witness :
  let r := monitor_rin (monitor 2) second_pass rin baseline_world in
  files r.2
  = <[rin := sweep second_pass 2
               (write_entry
                  (written second_pass rin "202504"
                     (document "2024-02-01" "data v1"))
                  (snapshots baseline_world rin))]>
    (files baseline_world)
  /\ ((exists changed, r.1 = Return changed)
      \/ (exists key, r.1 = Raise (KeyError key)))
  /\ (notifier_ready (config (monitor 2)) = true ->
      exists changed, r.1 = Return changed).
Proof.
  apply (snapshot_written_on_accepted_fetch (monitor 2) second_pass rin
           baseline_world "202504" []); reflexivity.
Defined.



Lemma not_found_ends_pass_witness :
  let w' := say baseline_world
              [Print (CheckingRIN rin); Print (LatestAgenda "202504");
               Print (RINNotFound "202504")] in
  monitor_rin (monitor 2) short_pass rin baseline_world = (Return false, w')
  /\ files w' = files baseline_world
  /\ List.filter is_notifier (output w')
     = List.filter is_notifier (output baseline_world)
  /\ monitor_each (monitor 2) (fun _ => short_pass) 0 [rin; rin] 0
       baseline_world
     = monitor_each (monitor 2) (fun _ => short_pass) 1 [rin] 0 w'.
Proof.
  apply (not_found_ends_pass (monitor 2) (fun _ => short_pass) 0 rin [rin] 0
           baseline_world "202504" [] "<html>error</html>"); reflexivity.
Defined.

Lemma catalog_fallback_raises_witness :
  (get_available_agendas unreachable_pass empty_world).1
  = Raise (AttributeError "RINMonitor" "generate_default_pubids")
  /\ (monitor_rin (monitor 2) unreachable_pass rin empty_world).1
     = Raise (AttributeError "RINMonitor" "generate_default_pubids").
Proof.
  apply (catalog_fallback_raises (monitor 2) unreachable_pass rin empty_world).
  reflexivity.
Defined.

(** The page without a batch link runs into the same exception. *)
Lemma empty_page_raises :
  scraped empty_page_pass = []
  /\ (get_available_agendas empty_page_pass empty_world).1
     = Raise (AttributeError "RINMonitor" "generate_default_pubids").
Proof. vm_compute. split; reflexivity. Qed.



(** C10, as stated, fails: when the deletion fails, the written file stays
    under a retention count of zero, and the lookup of the latest snapshot
    finds it. *)
Lemma keep_zero_leaves_undeletable_file :
  let body := document "2024-01-01" "data v1" in
  let f := written locked_pass rin "202504" body in
  let w' := (save_rin_xml (monitor 0) locked_pass rin "202504" body
               empty_world).2 in
  keep_count (monitor 0) = 0
  /\ snapshots w' rin = [f]
  /\ output w' = [Print (ErrorDeleting (name f) (OSError (name f)))]
  /\ (get_latest_file_for_rin rin w').1 = Return (Some "202504", Some f).
Proof. vm_compute. repeat split. Qed.

Lemma keep_zero_retains_nothing_witness :
  let body := document "2024-01-01" "data v1" in
  let d := write_entry (written first_pass rin "202504" body) [] in
  let w' := (save_rin_xml (monitor 0) first_pass rin "202504" body
               empty_world).2 in
  (forall f, f ∈ files_to_delete 0 d <-> f ∈ d)
  /\ files w' !! rin
     = Some (filter (fun g => unlink_fails first_pass (name g) = true) d)
  /\ (unlink_succeeds first_pass ->
      files w' !! rin = Some []
      /\ (get_latest_file_for_rin rin w').1 = Return (None, None)
      /\ forall env' p rest body,
           scraped env' = p :: rest ->
           response env' = Some body ->
           not_found body = false ->
           unlink_succeeds env' ->
           let r := monitor_rin (monitor 0) env' rin w' in
           r.1 = Return false
           /\ output r.2
              = (output w'
                 ++ [Print (CheckingRIN rin); Print (LatestAgenda p);
                     Print (SavingBaseline p);
                     Print (DeletedOldFile
                              (snapshot_name rin p (now env')))])%list
           /\ files r.2 !! rin = Some []).
Proof.
  apply (keep_zero_retains_nothing (monitor 0) first_pass rin "202504"
           (document "2024-01-01" "data v1") empty_world).
  reflexivity.
Defined.

(** The scenarios of the retention count on the example instance: with a
    count of two, five writes leave the last two. *)
Lemma five_writes_leave_two :
  snapshots (save_each (monitor 2) rin five_writes empty_world).2 rin
  = [ cycle_file rin (cycle_at "202504" "20240104_000000" 4 "v4");
      cycle_file rin (cycle_at "202504" "20240105_000000" 5 "v5") ].
Proof. vm_compute. reflexivity. Qed.

End Checks.

(** * Further properties *)

(** ** The normalizer only deletes *)

Lemma sub_from_sublist (p : Re.pattern) (s : string) :
  forall skip,
    list_ascii_of_string (Re.sub_from p skip s)
    `sublist_of` list_ascii_of_string s.
Proof.
  induction s as [|c s IH]; intros skip; simpl; [done|].
  destruct skip as [|k].
  - destruct (p (String c s)) as [[|k]|]; simpl;
      first [by apply sublist_skip | by apply sublist_cons].
  - by apply sublist_cons.
Qed.

Lemma fold_sub_sublist (ps : list Re.pattern) (s : string) :
  list_ascii_of_string (fold_left (fun s p => Re.sub p s) ps s)
  `sublist_of` list_ascii_of_string s.
Proof.
  revert s. induction ps as [|p ps IH]; intros s; simpl; [done|].
  etrans; [apply IH|]. apply sub_from_sublist.
Qed.

(** X1.  The normalized text is the raw text with some characters left out: the
    normalizer never inserts, replaces or reorders a character. *)
Theorem normalize_only_deletes (content : string) :
  list_ascii_of_string (normalize_xml_for_comparison content)
  `sublist_of` list_ascii_of_string content.
Proof. exact (fold_sub_sublist volatile_patterns content). Qed.

(** ** Catalog resolver *)

Lemma search_some {A : Type} (here : string -> option A) (s : string) (a : A) :
  Py.search here s = Some a -> exists suffix, here suffix = Some a.
Proof.
  induction s as [|c s IH]; simpl.
  - destruct (here EmptyString) eqn:Hh; [|discriminate].
    intros [= <-]. eauto.
  - destruct (here (String c s)) eqn:Hh.
    + intros [= <-]. eauto.
    + exact IH.
Qed.

Lemma pubid_in_href_six_digits (s p : string) :
  pubid_in_href s = Some p -> six_digits p = true.
Proof.
  unfold pubid_in_href, six_digits.
  destruct (Text.lit false "REGINFO_RIN_DATA_" s) as [r|]; [|done].
  set (digits := Text.take 6 r).
  destruct ((String.length digits =? 6)%nat
            && forallb Text.is_digit (list_ascii_of_string digits))
    eqn:Hd; cbn [andb]; [|done].
  destruct (String.prefix ".xml" (Text.drop 6 r)); [|done].
  by intros [= <-].
Qed.

Lemma endswith_two (p suffix : string) :
  String.length p = 6%nat -> String.length suffix = 2%nat ->
  Py.endswith p suffix = true <-> Text.drop 4 p = suffix.
Proof.
  intros Hp Hs. unfold Py.endswith. rewrite Hp, Hs. simpl.
  rewrite andb_true_r. apply String.eqb_eq.
Qed.

(** The test that the loop over the links applies to a matched batch id. *)
Lemma pubid_filter_iff (p : string) :
  six_digits p = true ->
  ((String.length p =? 6)%nat
   && (Py.endswith p "04" || Py.endswith p "10")
   && ((2020 <=? Py.int_of_digits (Text.take 4 p))
       && (Py.int_of_digits (Text.take 4 p) <=? 2030)) = true)
  <-> well_formed_pubid p.
Proof.
  unfold six_digits, well_formed_pubid. intros [Hlen Hdig]%andb_true_iff.
  apply Nat.eqb_eq in Hlen. rewrite Hlen. simpl.
  rewrite !andb_true_iff, orb_true_iff, !Z.leb_le.
  rewrite !(endswith_two p) by done. tauto.
Qed.

Lemma add_pubid_spec (pubids : list string) (href : string) :
  add_pubid pubids href
  = match Py.search pubid_in_href href with
    | Some p =>
        if (String.length p =? 6)%nat
           && (Py.endswith p "04" || Py.endswith p "10")
           && ((2020 <=? Py.int_of_digits (Text.take 4 p))
               && (Py.int_of_digits (Text.take 4 p) <=? 2030))
        then (if bool_decide (p ∈ pubids) then pubids else p :: pubids)
        else pubids
    | None => pubids
    end.
Proof.
  unfold add_pubid. destruct (Py.search pubid_in_href href) as [p|]; [|done].
  destruct ((String.length p =? 6)%nat
            && (Py.endswith p "04" || Py.endswith p "10")); [|done].
  by destruct ((2020 <=? Py.int_of_digits (Text.take 4 p))
               && (Py.int_of_digits (Text.take 4 p) <=? 2030)).
Qed.

Lemma elem_of_add_pubid (pubids : list string) (href p : string) :
  p ∈ add_pubid pubids href <-> p ∈ pubids \/ yields href p.
Proof.
  rewrite add_pubid_spec. unfold yields.
  destruct (Py.search pubid_in_href href) as [q|] eqn:Hsearch.
  - assert (Hsix : six_digits q = true).
    { apply search_some in Hsearch as [suffix Hs].
      by apply pubid_in_href_six_digits in Hs. }
    pose proof (pubid_filter_iff q Hsix) as Hfilter.
    destruct ((String.length q =? 6)%nat
              && (Py.endswith q "04" || Py.endswith q "10")
              && ((2020 <=? Py.int_of_digits (Text.take 4 q))
                  && (Py.int_of_digits (Text.take 4 q) <=? 2030))).
    + case_bool_decide as Hin.
      * split; [tauto|]. intros [?|[[= <-] _]]; done.
      * rewrite elem_of_cons. split.
        -- intros [->|?]; [right; split; [done|by apply Hfilter]|tauto].
        -- intros [?|[[= <-] _]]; tauto.
    + split; [tauto|]. intros [?|[[= <-] Hwf]]; [done|].
      apply Hfilter in Hwf. discriminate.
  - split; [tauto|]. intros [?|[? _]]; [done|discriminate].
Qed.

Lemma elem_of_foldl_add_pubid (hrefs : list string) :
  forall pubids p,
    p ∈ foldl add_pubid pubids hrefs
    <-> p ∈ pubids \/ exists href, href ∈ hrefs /\ yields href p.
Proof.
  induction hrefs as [|href hrefs IH]; intros pubids p; simpl.
  - split; [tauto|]. intros [?|(href & Hin & _)]; [done|].
    by apply elem_of_nil in Hin.
  - rewrite IH, elem_of_add_pubid. split.
    + intros [[?|?]|(h & Hin & Hy)]; [tauto| |].
      * right. exists href. split; [by left|done].
      * right. exists h. split; [by right|done].
    + intros [?|(h & Hin & Hy)]; [tauto|].
      apply elem_of_cons in Hin as [->|Hin]; [tauto|]. right. eauto.
Qed.

Lemma NoDup_add_pubid (pubids : list string) (href : string) :
  NoDup pubids -> NoDup (add_pubid pubids href).
Proof.
  intros Hnd. rewrite add_pubid_spec.
  destruct (Py.search pubid_in_href href) as [q|]; [|done].
  destruct (_ && _); [|done].
  case_bool_decide; [done|]. by constructor.
Qed.

Lemma NoDup_foldl_add_pubid (hrefs : list string) :
  forall pubids, NoDup pubids -> NoDup (foldl add_pubid pubids hrefs).
Proof.
  induction hrefs as [|href hrefs IH]; intros pubids Hnd; simpl; [done|].
  by apply IH, NoDup_add_pubid.
Qed.

Lemma strict_of_sorted_nodup (l : list string) :
  StronglySorted (descending String.leb) l -> NoDup l ->
  StronglySorted string_gt l.
Proof.
  induction 1 as [|x l Hl IH Hx]; intros Hnd; [constructor|].
  apply NoDup_cons in Hnd as [Hnotin Hnd].
  constructor; [by apply IH|].
  rewrite Forall_forall in Hx |- *. intros y Hy.
  specialize (Hx y Hy). unfold descending, String.leb in Hx.
  unfold string_gt, String.ltb.
  destruct (String.compare y x) eqn:Hc; [|done|done].
  apply String.compare_eq_iff in Hc. subst. done.
Qed.

Section Catalog.
Context `{Library}.

Lemma get_available_agendas_returns (env : Env) (w w' : World)
    (l : list string) :
  get_available_agendas env w = (Return l, w') ->
  w' = w /\ l = scraped env /\ l <> [].
Proof.
  intros Hrun. destruct (scraped env) as [|p rest] eqn:Hs.
  - destruct (get_available_agendas_fails env w Hs) as [e He].
    rewrite He in Hrun. discriminate.
  - rewrite (get_available_agendas_ok env w p rest Hs) in Hrun.
    by injection Hrun as <- <-.
Qed.

(** X2.  When the catalog resolver returns, it leaves the world as it was and
    returns a list that is not empty and strictly descending (the newest
    batch first, no batch twice), whose members are the well-formed batch
    ids that the links of the page yield. *)
Theorem available_agendas_characterized (env : Env) (w w' : World)
    (l : list string) :
  get_available_agendas env w = (Return l, w') ->
  w' = w
  /\ l <> []
  /\ StronglySorted string_gt l
  /\ forall p,
       p ∈ l
       <-> exists hrefs href,
             catalog env = CatalogPage hrefs /\ href ∈ hrefs
             /\ Py.search pubid_in_href href = Some p
             /\ well_formed_pubid p.
Proof.
  intros Hrun.
  apply get_available_agendas_returns in Hrun as (-> & -> & Hne).
  split; [done|]. split; [done|].
  unfold scraped in *. destruct (catalog env) as [e|hrefs]; [done|].
  split.
  - apply strict_of_sorted_nodup.
    + apply sorted_reverse_sorted.
      * apply String.leb_total.
      * apply string_leb_trans.
    + rewrite sorted_reverse_perm. apply NoDup_foldl_add_pubid. constructor.
  - intros p. rewrite sorted_reverse_perm, elem_of_foldl_add_pubid.
    unfold yields. split.
    + intros [Hin|(href & Hin & Hs & Hwf)]; [by apply elem_of_nil in Hin|].
      exists hrefs, href. done.
    + intros (hrefs' & href & [= <-] & Hin & Hs & Hwf). right. eauto.
Qed.

(** X3.  The answer of the catalog resolver does not depend on the order in
    which the page lists its links. *)
Theorem available_agendas_order_independent (env env' : Env) (w : World)
    (hrefs hrefs' : list string) :
  catalog env = CatalogPage hrefs ->
  catalog env' = CatalogPage hrefs' ->
  hrefs ≡ₚ hrefs' ->
  get_available_agendas env w = get_available_agendas env' w.
Proof.
  intros Hc Hc' Hperm.
  assert (Hsame : scraped env = scraped env').
  { unfold scraped. rewrite Hc, Hc'.
    apply (StronglySorted_unique_strong (descending String.leb)).
    - intros x y _ _ Hxy Hyx. unfold descending in *.
      by apply String.leb_antisym.
    - apply sorted_reverse_sorted;
        [apply String.leb_total|apply string_leb_trans].
    - apply sorted_reverse_sorted;
        [apply String.leb_total|apply string_leb_trans].
    - rewrite !sorted_reverse_perm. apply NoDup_Permutation.
      + apply NoDup_foldl_add_pubid. constructor.
      + apply NoDup_foldl_add_pubid. constructor.
      + intros p. rewrite !elem_of_foldl_add_pubid.
        by setoid_rewrite Hperm. }
  destruct (scraped env) as [|p rest] eqn:Hs.
  - unfold get_available_agendas, try_except, http_get_catalog.
    rewrite Hc, Hc'. rewrite !run_bind. simpl.
    unfold scraped in Hs, Hsame. rewrite Hc in Hs. rewrite Hc' in Hsame.
    apply sorted_reverse_nil in Hs. symmetry in Hsame.
    apply sorted_reverse_nil in Hsame. by rewrite Hs, Hsame.
  - rewrite (get_available_agendas_ok env w p rest Hs).
    by rewrite (get_available_agendas_ok env' w p rest).
Qed.

End Catalog.

(** ** File names of the snapshot store *)

Lemma lit_app (pat s : string) : Text.lit false pat (pat ++ s) = Some s.
Proof.
  induction pat as [|c pat IH]; [done|].
  rewrite string_app_cons. simpl. by rewrite Ascii.eqb_refl.
Qed.

Lemma lit_char (c : ascii) (s : string) :
  Text.lit false (String c EmptyString) (String c s) = Some s.
Proof. simpl. by rewrite Ascii.eqb_refl. Qed.

Lemma prefix_char (c : ascii) (s : string) :
  String.prefix (String c EmptyString) (String c s) = true.
Proof. simpl. destruct (ascii_dec c c); [by destruct s|done]. Qed.

Lemma span_len_app (p : ascii -> bool) (a : string) (c : ascii) (s : string) :
  forallb p (list_ascii_of_string a) = true -> p c = false ->
  Text.span_len p (a ++ String c s) = String.length a.
Proof.
  intros Ha Hc. induction a as [|x a IH].
  - rewrite string_app_nil_l. simpl. by rewrite Hc.
  - rewrite string_app_cons. simpl in *.
    apply andb_true_iff in Ha as [-> Ha]. by rewrite IH.
Qed.

Lemma text_drop_app (a s : string) : Text.drop (String.length a) (a ++ s) = s.
Proof.
  induction a as [|x a IH]; [done|]. rewrite string_app_cons. exact IH.
Qed.

Lemma text_take_app (a s : string) : Text.take (String.length a) (a ++ s) = a.
Proof.
  induction a as [|x a IH]; [by destruct s|].
  rewrite string_app_cons. simpl. by rewrite IH.
Qed.

Lemma search_here {A : Type} (here : string -> option A) (s : string) (a : A) :
  here s = Some a -> Py.search here s = Some a.
Proof. intros Hh. destruct s; simpl; by rewrite Hh. Qed.

(** X4.  The batch id that the lookup reads from a file name is the one that the
    write put there, for an identifier that is not empty and has no
    underscore and a batch id of six digits. *)
Theorem pubid_read_back (rin pubid timestamp : string) :
  plain_rin rin = true ->
  six_digits pubid = true ->
  Py.search pubid_in_name (snapshot_name rin pubid timestamp) = Some pubid.
Proof.
  unfold plain_rin, six_digits.
  intros [Hne Hplain]%andb_true_iff [Hlen Hdigits]%andb_true_iff.
  apply Nat.eqb_eq in Hlen. apply negb_true_iff, String.eqb_neq in Hne.
  apply search_here. unfold snapshot_name, pubid_in_name.
  rewrite lit_app.
  change ("_" ++ ?s) with (String "_" s).
  rewrite (span_len_app not_underscore rin) by done.
  destruct (String.length rin) as [|n] eqn:Hrin.
  { destruct rin; [done|discriminate]. }
  rewrite <- Hrin, text_drop_app.
  rewrite lit_char.
  rewrite <- Hlen. rewrite text_take_app, text_drop_app.
  rewrite Nat.eqb_refl, Hdigits.
  change ("_" ++ ?s) with (String "_" s). by rewrite prefix_char.
Qed.

(** ** The retention sweep, for any clock and any retention count *)

Section SweepInGeneral.
Context `{Library} `{!GlobContract}.

(** X5.  The sweep of an existing directory ends normally, whether or not a
    deletion fails; it leaves a sublist of the directory (it deletes entries
    and does nothing else) and the directories of the other identifiers
    alone.  It leaves every entry that it did not select and every selected
    entry whose deletion fails, so at least as many entries as the retention
    count allows, a negative count being counted from the end of the listing
    as the slice does; and exactly as many when no deletion fails. *)
Theorem cleanup_leaves_count (env : Env) (rin : string) (keep : Z)
    (w : World) (d : list File) :
  files w !! rin = Some d ->
  NoDup (map name d) ->
  let r := cleanup_old_files env rin keep w in
  r.1 = Return tt
  /\ snapshots r.2 rin `sublist_of` d
  /\ (forall f, f ∈ d ->
        f ∈ snapshots r.2 rin
        <-> (f ∉ files_to_delete keep d \/ unlink_fails env (name f) = true))
  /\ (left_by_sweep keep (length d) <= length (snapshots r.2 rin))%nat
  /\ (unlink_succeeds env ->
      length (snapshots r.2 rin) = left_by_sweep keep (length d))
  /\ forall other, other <> rin -> files r.2 !! other = files w !! other.
Proof.
  intros Hdir Hnames r. subst r.
  rewrite (cleanup_present env rin keep w d Hdir). unfold snapshots. simpl.
  rewrite lookup_insert_eq. split; [done|]. split; [apply sweep_sublist|].
  assert (Hleft : forall f, f ∈ d ->
            f ∈ sweep env keep d
            <-> (f ∉ files_to_delete keep d
                 \/ unlink_fails env (name f) = true)).
  { intros f Hf. split.
    - intros Hin. destruct (unlink_fails env (name f)) eqn:Hfail; [by right|].
      left. by apply (sweep_left env keep d f).
    - intros Hcase. destruct (decide (f ∈ sweep env keep d)) as [|Hout]; [done|].
      exfalso. pose proof (sweep_gone env keep d f Hnames Hf Hout) as Hsel.
      destruct Hcase as [Hnot|Hfail]; [done|].
      rewrite sweep_as_filter in Hout. apply Hout.
      apply list_elem_of_filter. split; [|done].
      rewrite map_fmap. intros Hin.
      apply list_elem_of_fmap in Hin as (g & Hname & Hg).
      unfold removed in Hg. apply list_elem_of_filter in Hg as [Hok _].
      congruence. }
  split; [exact Hleft|]. split; [|split].
  - destruct (files_to_delete_drop keep d) as (m & Hdel & Hm).
    set (sorted := Py.sorted_reverse mtime_le (glob_order d)) in *.
    assert (Hsub : take m sorted ⊆+ sweep env keep d).
    { apply NoDup_submseteq.
      - apply (NoDup_fmap_1 name). rewrite <- map_fmap.
        assert (Hs : NoDup (map name (take m sorted ++ drop m sorted)%list)).
        { rewrite take_drop, map_fmap. subst sorted.
          rewrite sorted_by_mtime_perm. by rewrite <- map_fmap. }
        rewrite map_app in Hs. by apply NoDup_app in Hs as [Hs _].
      - intros f Hf.
        assert (Hfd : f ∈ d).
        { apply subseteq_take in Hf. subst sorted.
          by rewrite sorted_by_mtime_perm in Hf. }
        apply Hleft; [done|]. left. rewrite Hdel. intros Hf'.
        assert (Hs : NoDup (take m sorted ++ drop m sorted)%list).
        { rewrite take_drop. apply (NoDup_fmap_1 name).
          rewrite <- map_fmap, map_fmap. subst sorted.
          rewrite sorted_by_mtime_perm. by rewrite <- map_fmap. }
        apply NoDup_app in Hs as (_ & Hdisj & _). by apply (Hdisj f). }
    apply submseteq_length in Hsub. rewrite length_take in Hsub.
    rewrite <- Hm.
    replace (length d) with (length sorted); [lia|].
    apply Permutation_length. subst sorted. apply sorted_by_mtime_perm.
  - intros Hok. by apply sweep_count.
  - intros other Hne. by rewrite lookup_insert_ne.
Qed.

(** X6.  The sweep deletes from the old end, whether or not a deletion fails:
    no deleted entry is newer than an entry that it leaves and that could
    have been deleted. *)
Theorem cleanup_keeps_most_recent (env : Env) (rin : string) (keep : Z)
    (w : World) (d : list File) (f g : File) :
  files w !! rin = Some d ->
  NoDup (map name d) ->
  let w' := (cleanup_old_files env rin keep w).2 in
  f ∈ snapshots w' rin -> unlink_fails env (name f) = false ->
  g ∈ d -> g ∉ snapshots w' rin ->
  st_mtime g <= st_mtime f.
Proof.
  intros Hdir Hnames w'. subst w'.
  rewrite (cleanup_present env rin keep w d Hdir). unfold snapshots. simpl.
  rewrite lookup_insert_eq. intros Hf Hok Hg Hng.
  by apply (sweep_most_recent env keep d f g).
Qed.

(** X7.  However the clock runs, whatever names the writes use and whatever
    deletion fails, after any sequence of write-and-sweep cycles the file
    names of the identifier are pairwise different; and under a retention
    count that is not negative, once a cycle has run whose deletions
    succeed, at most as many records as the count are retained. *)
Theorem at_most_keep_files (self : RINMonitor) (rin : string)
    (cycles : list Cycle) (c : Cycle) (w0 : World) :
  0 <= keep_count self ->
  NoDup (map name (snapshots w0 rin)) ->
  let w := (save_each self rin (cycles ++ [c]) w0).2 in
  NoDup (map name (snapshots w rin))
  /\ (unlink_succeeds (at_env c) ->
      (length (snapshots w rin) <= Z.to_nat (keep_count self))%nat).
Proof.
  intros Hkeep Hnames0 w. subst w.
  assert (Hnames : forall cycles,
            NoDup (map name (snapshots (save_each self rin cycles w0).2 rin))).
  { clear cycles. intros cycles.
    induction cycles as [|c' cycles IH] using rev_ind; [done|].
    rewrite save_each_snoc, save_rin_xml_snapshots.
    by apply sweep_names, write_entry_names. }
  split; [apply Hnames|].
  intros Hok. rewrite save_each_snoc, save_rin_xml_snapshots.
  rewrite sweep_count by (try done; apply write_entry_names, Hnames).
  unfold left_by_sweep. rewrite (proj2 (Z.leb_le 0 _) Hkeep). lia.
Qed.

End SweepInGeneral.

(** ** The passes of the change detector *)

Section Passes.
Context `{Library}.

Lemma monitor_rin_catalog_fails (self : RINMonitor) (env : Env)
    (rin : string) (w : World) :
  scraped env = [] ->
  exists e,
    monitor_rin self env rin w
    = (Raise (AttributeError "RINMonitor" "generate_default_pubids"),
       say w [Print (CheckingRIN rin); Print (CouldNotPing e)]).
Proof.
  intros Hs. unfold monitor_rin. rewrite run_bind, print_run, run_bind.
  destruct (get_available_agendas_fails env
              (say w [Print (CheckingRIN rin)]) Hs) as [e ->].
  exists e. by rewrite say_say.
Qed.

Lemma monitor_rin_fetch_fails (self : RINMonitor) (env : Env)
    (rin : string) (w : World) (p : string) (rest : list string) :
  scraped env = p :: rest ->
  response env = None ->
  monitor_rin self env rin w
  = (Return false,
     say w [Print (CheckingRIN rin); Print (LatestAgenda p);
            Print ErrorFetchingXML; Print FailedToFetchXML]).
Proof.
  intros Hs Hr. unfold monitor_rin.
  rewrite run_bind, print_run, run_bind.
  rewrite (get_available_agendas_ok _ _ _ _ Hs).
  rewrite run_bind, print_run, run_bind.
  unfold fetch_rin_xml. rewrite Hr.
  rewrite run_bind, print_run. unfold ret at 1.
  rewrite run_bind, print_run. unfold ret. by rewrite !say_say.
Qed.

(** Every pass has one of two shapes: it only prints, or it prints and
    rewrites the directory of its identifier. *)
Lemma monitor_rin_shape (self : RINMonitor) (env : Env) (rin : string)
    (w : World) :
  exists events (dir : option (list File)),
    (monitor_rin self env rin w).2
    = {| files := match dir with
                  | Some d => <[rin := d]> (files w)
                  | None => files w
                  end;
         output := (output w ++ events)%list |}.
Proof.
  destruct (scraped env) as [|p rest] eqn:Hs.
  { destruct (monitor_rin_catalog_fails self env rin w Hs) as [e ->].
    by eexists _, None. }
  destruct (response env) as [body|] eqn:Hr.
  2: { rewrite (monitor_rin_fetch_fails self env rin w p rest Hs Hr).
       by eexists _, None. }
  destruct (not_found body) eqn:Hnf.
  { rewrite (monitor_rin_rejects self env rin w p rest body Hs Hr Hnf).
    by eexists _, None. }
  pose proof (monitor_rin_accepts self env rin w p rest body Hs Hr Hnf)
    as Hrun. simpl in Hrun.
  destruct (latest_lookup (files w !! rin)) as [pp [prev|]].
  - case_bool_decide; rewrite Hrun; unfold saved, say; simpl;
      eexists _, (Some _); rewrite <- ?app_assoc; reflexivity.
  - rewrite Hrun. unfold saved, say. simpl.
    eexists _, (Some _). rewrite <- ?app_assoc. reflexivity.
Qed.

(** X8.  A pass over one identifier leaves the snapshots of every other
    identifier as they are, and adds to the output without changing what
    was printed before. *)
Theorem pass_touches_only_its_directory (self : RINMonitor) (env : Env)
    (rin : string) (w : World) :
  (exists events,
     output (monitor_rin self env rin w).2 = (output w ++ events)%list)
  /\ forall other,
       other <> rin ->
       files (monitor_rin self env rin w).2 !! other = files w !! other.
Proof.
  destruct (monitor_rin_shape self env rin w) as (events & dir & ->).
  simpl. split; [eauto|].
  intros other Hne. destruct dir; [|done]. by rewrite lookup_insert_ne.
Qed.

(** A pass for which the catalog resolves ends normally, or with the
    [KeyError] of the notifier. *)
Lemma monitor_rin_ends (self : RINMonitor) (env : Env) (rin : string)
    (w : World) :
  scraped env <> [] ->
  let r := monitor_rin self env rin w in
  (notifier_ready (config self) = true -> exists changed, r.1 = Return changed)
  /\ ((exists changed, r.1 = Return changed)
      \/ (notifier_ready (config self) = false
          /\ exists key, r.1 = Raise (KeyError key))).
Proof.
  destruct (scraped env) as [|p rest] eqn:Hs; [done|]. intros _ r. subst r.
  destruct (response env) as [body|] eqn:Hr.
  2: { rewrite (monitor_rin_fetch_fails self env rin w p rest Hs Hr). eauto. }
  destruct (not_found body) eqn:Hnf.
  { rewrite (monitor_rin_rejects self env rin w p rest body Hs Hr Hnf).
    eauto. }
  pose proof (monitor_rin_accepts self env rin w p rest body Hs Hr Hnf)
    as Hrun. simpl in Hrun.
  destruct (latest_lookup (files w !! rin)) as [pp [prev|]].
  - case_bool_decide; rewrite Hrun; [eauto|].
    destruct (delivery_ready self env rin pp p
                (compare_xml (read_text prev) body)) as [Hready Hmissing].
    simpl. destruct (notifier_ready (config self)).
    + destruct Hready as [delivered ->]; eauto.
    + destruct Hmissing as [key ->]; [done|]. split; [done|]. right. eauto.
  - rewrite Hrun. eauto.
Qed.

(** X9.  A pass raises the [AttributeError] of the missing fallback generator
    exactly when the catalog page yields no batch id.  When the page yields
    one, the pass ends normally, a failed or rejected fetch included, but
    for one case: it raises the [KeyError] of the notifier when a change is
    reported under a configuration that lacks a key which the notifier
    subscripts.  So under a configuration that has those keys a pass ends
    normally exactly when the catalog page yields a batch id. *)
Theorem pass_returns_iff_catalog_resolves (self : RINMonitor) (env : Env)
    (rin : string) (w : World) :
  let r := monitor_rin self env rin w in
  (r.1 = Raise (AttributeError "RINMonitor" "generate_default_pubids")
   <-> scraped env = [])
  /\ (scraped env <> [] ->
      (exists changed, r.1 = Return changed)
      \/ (notifier_ready (config self) = false
          /\ exists key, r.1 = Raise (KeyError key)))
  /\ (notifier_ready (config self) = true ->
      ((exists changed, r.1 = Return changed) <-> scraped env <> [])).
Proof.
  intros r. subst r. split; [|split].
  - split.
    + intros Hraise.
      destruct (decide (scraped env = [])) as [|Hs]; [done|]. exfalso.
      destruct (monitor_rin_ends self env rin w Hs)
        as [_ [[changed Hc]|[_ [key Hc]]]]; rewrite Hc in Hraise; discriminate.
    + intros Hs.
      by destruct (monitor_rin_catalog_fails self env rin w Hs) as [e ->].
  - intros Hs. by destruct (monitor_rin_ends self env rin w Hs) as [_ Hends].
  - intros Hready. split.
    + intros [changed Hc] Hs.
      destruct (monitor_rin_catalog_fails self env rin w Hs) as [e He].
      rewrite He in Hc. discriminate.
    + intros Hs.
      destruct (monitor_rin_ends self env rin w Hs) as [Hret _]. auto.
Qed.

(** X10.  When the document request fails, the pass ends with the result [False]
    after four printed lines: nothing is written and the notifier is not
    called. *)
Theorem fetch_failure_ends_pass (self : RINMonitor) (env : Env)
    (rin : string) (w : World) (p : string) (rest : list string) :
  scraped env = p :: rest ->
  response env = None ->
  let r := monitor_rin self env rin w in
  r.1 = Return false
  /\ files r.2 = files w
  /\ output r.2
     = (output w ++ [Print (CheckingRIN rin); Print (LatestAgenda p);
                     Print ErrorFetchingXML; Print FailedToFetchXML])%list.
Proof.
  intros Hs Hr r. subst r.
  by rewrite (monitor_rin_fetch_fails self env rin w p rest Hs Hr).
Qed.

(** X11.  When the stored text of the latest snapshot is the fetched text and has
    no carriage return, the pass reports no change: it returns [False],
    prints so, writes the snapshot again and does not call the notifier. *)
Theorem same_content_is_no_change (self : RINMonitor) (env : Env)
    (rin : string) (w : World) (p : string) (rest : list string) (F : string)
    (previous_pubid : option string) (previous_file : File) :
  scraped env = p :: rest ->
  response env = Some F ->
  not_found F = false ->
  latest_lookup (files w !! rin) = (previous_pubid, Some previous_file) ->
  text previous_file = F ->
  no_cr F = true ->
  monitor_rin self env rin w
  = (Return false,
     saved self env rin p F
       (say w [Print (CheckingRIN rin); Print (LatestAgenda p);
               Print NoChangesDetected])).
Proof.
  intros Hs Hr Hnf Hlatest Htext Hcr.
  pose proof (monitor_rin_accepts self env rin w p rest F Hs Hr Hnf) as Hrun.
  rewrite Hlatest in Hrun. simpl in Hrun.
  unfold read_text in Hrun. rewrite Htext in Hrun.
  rewrite (universal_newlines_no_cr F Hcr) in Hrun.
  rewrite bool_decide_eq_true_2 in Hrun by done.
  by rewrite Hrun, say_say.
Qed.

(** X12.  The notifier never touches the store.  It raises [KeyError] when the
    configuration has no [email] key or, with both credentials set, no
    [from_address] or no [to_address] key.  Otherwise it ends normally, and
    it reports a delivery exactly when both credentials are set, the keys
    of the server and the port are there and the SMTP exchange goes
    through. *)
Theorem notifier_reports_delivery (self : RINMonitor) (env : Env)
    (rin : string) (old_pubid : option string)
    (new_pubid diff_text old_file new_file : string) (w : World) :
  let r := send_email_notification self env rin old_pubid new_pubid
             diff_text old_file new_file w in
  files r.2 = files w
  /\ (notifier_ready (config self) = false ->
      exists key,
        r.1 = Raise (KeyError key)
        /\ key ∈ ["email"; "from_address"; "to_address"])
  /\ (notifier_ready (config self) = true ->
      exists delivered,
        r.1 = Return delivered
        /\ (delivered = true
            <-> exists smtp_config,
                  email (config self) = Some smtp_config
                  /\ credentials_set smtp_config = true
                  /\ is_Some (smtp_server smtp_config)
                  /\ is_Some (smtp_port smtp_config)
                  /\ smtp_delivers env = true)).
Proof.
  intros r. subst r. rewrite send_email_run. simpl. split; [done|].
  unfold delivery, notifier_ready.
  generalize (Text.take 5000 diff_text). intros preview.
  destruct (email (config self)) as [smtp_config|].
  2: { split; [|done]. intros _. exists "email". split; [done|]. by left. }
  destruct (credentials_set smtp_config) eqn:Hcred; simpl.
  2: { split; [done|]. intros _. exists false. split; [done|].
       split; [done|]. intros (c & [= <-] & Hc & _). congruence. }
  destruct (from_address smtp_config) as [msg_from|].
  2: { rewrite (bool_decide_eq_false_2 (is_Some None)) by by intros [].
       split; [|done]. intros _. exists "from_address". split; [done|].
       right. by left. }
  destruct (to_address smtp_config) as [msg_to|].
  2: { rewrite (bool_decide_eq_false_2 (is_Some None)) by by intros [].
       rewrite andb_false_r.
       split; [|done]. intros _. exists "to_address". split; [done|].
       right. right. by left. }
  rewrite !bool_decide_eq_true_2 by eauto. split; [done|]. intros _.
  destruct (smtp_server smtp_config) as [server|] eqn:Hserver.
  2: { exists false. split; [done|]. split; [done|].
       intros (c & [= <-] & _ & [? Hs] & _). congruence. }
  destruct (smtp_port smtp_config) as [port|] eqn:Hport.
  2: { exists false. split; [done|]. split; [done|].
       intros (c & [= <-] & _ & _ & [? Hp] & _). congruence. }
  destruct (smtp_delivers env).
  - exists true. split; [done|]. split; [|done]. intros _.
    exists smtp_config. rewrite Hserver, Hport. eauto 10.
  - exists false. split; [done|]. split; [done|].
    by intros (c & _ & _ & _ & _ & ?).
Qed.

(** X13.  When the catalog does not resolve during the pass of an identifier,
    the loop over the identifiers ends there with the exception: the store
    is unchanged and the identifiers after it are not looked at. *)
Theorem catalog_failure_stops_run (self : RINMonitor) (envs : nat -> Env)
    (i : nat) (rin : string) (more : list string) (changes : Z) (w : World) :
  scraped (envs i) = [] ->
  exists e,
    monitor_each self envs i (rin :: more) changes w
    = (Raise (AttributeError "RINMonitor" "generate_default_pubids"),
       say w [Print (CheckingRIN rin); Print (CouldNotPing e)]).
Proof.
  intros Hs.
  destruct (monitor_rin_catalog_fails self (envs i) rin w Hs) as [e He].
  exists e. simpl. by rewrite run_bind, He.
Qed.

(** X14.  When the catalog resolves in every pass and the configuration has
    the keys that the notifier subscripts, the loop over the identifiers
    ends normally, and the number of changes it reports grew by at most one
    for each identifier. *)
Theorem run_counts_changes (self : RINMonitor) (envs : nat -> Env)
    (rins : list string) :
  notifier_ready (config self) = true ->
  (forall i, scraped (envs i) <> []) ->
  forall i changes w,
    exists total w',
      monitor_each self envs i rins changes w = (Return total, w')
      /\ changes <= total <= changes + Z.of_nat (length rins).
Proof.
  intros Hready Hall. induction rins as [|rin rins IH]; intros i changes w.
  - exists changes, w. split; [done|]. simpl. lia.
  - simpl. rewrite run_bind.
    destruct (monitor_rin_ends self (envs i) rin w (Hall i)) as [Hret _].
    destruct (Hret Hready) as [changed Hc].
    destruct (monitor_rin self (envs i) rin w) as [o w1]. simpl in Hc.
    subst o.
    destruct (IH (S i) (if changed then changes + 1 else changes) w1)
      as (total & w' & Hrun & Hbound).
    exists total, w'. split; [exact Hrun|].
    destruct changed; lia.
Qed.

(** X15.  With a configuration file that lists no identifier, the program prints
    its banner and the notice, makes no request and leaves the store as it
    is. *)
Theorem main_without_identifiers (c : Config) (envs : nat -> Env)
    (w : World) :
  rins c = None \/ rins c = Some [] ->
  main (Some c) envs w
  = (Return tt, say w [Print Banner; Print NoRINsConfigured]).
Proof.
  intros Hrins. unfold main. rewrite run_bind.
  unfold init, load_config. rewrite run_bind. unfold ret at 1.
  rewrite run_bind. unfold config_get, ret at 1. unfold ret at 1.
  unfold run. rewrite run_bind, print_run. simpl.
  destruct Hrins as [-> | ->]; rewrite print_run; by rewrite say_say.
Qed.

End Passes.

Section Baseline.
Context `{Library} `{!GlobContract}.

(** X16.  The first pass over an identifier with an accepted response, under a
    retention count of at least one: it returns [False], announces the
    baseline, and leaves exactly the written record; the notifier is not
    called. *)
Theorem baseline_pass (self : RINMonitor) (env : Env) (rin : string)
    (w : World) (p : string) (rest : list string) (body : string) :
  scraped env = p :: rest ->
  response env = Some body ->
  not_found body = false ->
  snapshots w rin = [] ->
  1 <= keep_count self ->
  monitor_rin self env rin w
  = (Return false,
     {| files := <[rin := [written env rin p body]]> (files w);
        output := (output w
                   ++ [Print (CheckingRIN rin); Print (LatestAgenda p);
                       Print (SavingBaseline p)])%list |}).
Proof.
  intros Hs Hr Hnf Hempty Hkeep.
  pose proof (monitor_rin_accepts self env rin w p rest body Hs Hr Hnf)
    as Hrun. simpl in Hrun.
  assert (Hlook : latest_lookup (files w !! rin) = (None, None)).
  { unfold snapshots in Hempty. unfold latest_lookup.
    destruct (files w !! rin) as [d|]; [|done]. subst d.
    by rewrite glob_order_nil. }
  rewrite Hlook in Hrun. rewrite Hrun. f_equal.
  unfold saved. simpl.
  assert (Hsnap : snapshots
            (say (say w [Print (CheckingRIN rin); Print (LatestAgenda p)])
               [Print (SavingBaseline p)]) rin = []) by exact Hempty.
  rewrite Hsnap.
  assert (Hdel : files_to_delete (keep_count self)
                   (write_entry (written env rin p body) []) = []).
  { unfold files_to_delete, write_entry. simpl.
    rewrite glob_order_singleton. simpl.
    rewrite slice_from_nonneg by lia.
    apply drop_ge. simpl. lia. }
  unfold sweep, deletions. rewrite Hdel. simpl.
  by rewrite app_nil_r, <- app_assoc.
Qed.

End Baseline.

(** ** A written snapshot as the next baseline *)

Lemma string_ltb_not_leb (a b : string) :
  String.ltb a b = true -> String.leb b a = false.
Proof.
  unfold String.ltb, String.leb. rewrite (String.compare_antisym a b).
  by destruct (String.compare b a).
Qed.

Lemma string_ltb_neq (a b : string) : String.ltb a b = true -> a <> b.
Proof.
  intros Hlt ->. apply string_ltb_not_leb in Hlt.
  destruct (String.leb_total b b); congruence.
Qed.

Section NextBaseline.
Context `{Library} `{!GlobContract}.

(** X17.  After a write whose file name is greater and whose modification time
    is later than those of all snapshots of the identifier, under a
    retention count of at least one, the written record is retained and is
    what the lookup of the latest snapshot answers. *)
Theorem written_snapshot_is_latest (self : RINMonitor) (env : Env)
    (rin pubid content : string) (w : World) :
  let f := written env rin pubid content in
  1 <= keep_count self ->
  NoDup (map name (snapshots w rin)) ->
  (forall g, g ∈ snapshots w rin ->
     string_gt (name f) (name g) /\ st_mtime g < st_mtime f) ->
  let w' := (save_rin_xml self env rin pubid content w).2 in
  f ∈ snapshots w' rin
  /\ get_latest_file_for_rin rin w'
     = (Return (Py.search pubid_in_name (name f), Some f), w').
Proof.
  intros f Hkeep Hnames Hnewest w'.
  assert (Hfresh : name f ∉ map name (snapshots w rin)).
  { rewrite map_fmap. intros (g & Hg & Hin)%list_elem_of_fmap.
    destruct (Hnewest g Hin) as [Hgt _].
    apply string_ltb_neq in Hgt. congruence. }
  assert (Hsnap : snapshots w' rin
                  = sweep env (keep_count self) (snapshots w rin ++ [f])).
  { subst w'. rewrite save_rin_xml_snapshots. fold f.
    by rewrite write_entry_fresh. }
  set (d' := (snapshots w rin ++ [f])%list) in *.
  assert (Hnames' : NoDup (map name d')).
  { subst d'. rewrite <- (write_entry_fresh f) by done.
    by apply write_entry_names. }
  assert (Hin : f ∈ snapshots w' rin).
  { rewrite Hsnap, sweep_as_filter. apply list_elem_of_filter.
    split; [|subst d'; apply elem_of_app; right; by left].
    destruct (files_to_delete_drop (keep_count self) d') as (m & Hdel & Hm).
    assert (Hm1 : (1 <= m)%nat).
    { unfold left_by_sweep in Hm.
      rewrite (proj2 (Z.leb_le 0 _)) in Hm by lia.
      subst d'. rewrite length_app in Hm. simpl in Hm. lia. }
    destruct (Py.sorted_reverse mtime_le (glob_order d')) as [|x l] eqn:Hsort.
    { apply sorted_reverse_nil in Hsort.
      pose proof (glob_order_perm d') as Hp. rewrite Hsort in Hp.
      subst d'. apply Permutation_nil in Hp. by destruct (snapshots w rin). }
    destruct (sorted_reverse_head mtime_le mtime_le_total mtime_le_trans
                _ _ _ Hsort) as [Hx Hmax].
    rewrite glob_order_perm in Hx.
    assert (x = f) as ->.
    { subst d'. apply elem_of_app in Hx as [Hx|Hx].
      - destruct (Hnewest x Hx) as [_ Hlt].
        assert (mtime_le f x = true) as Hle.
        { apply Hmax. rewrite glob_order_perm. apply elem_of_app.
          right. by left. }
        unfold mtime_le in Hle. lia.
      - by apply list_elem_of_singleton in Hx. }
    rewrite map_fmap. intros (g & Hname & Hg)%list_elem_of_fmap.
    unfold removed in Hg. apply list_elem_of_filter in Hg as [_ Hg].
    rewrite Hdel in Hg. destruct m as [|m]; [lia|]. simpl in Hg.
    apply subseteq_drop in Hg.
    assert (Hsorted : NoDup (f :: l)).
    { rewrite <- Hsort, sorted_by_mtime_perm.
      apply (NoDup_fmap_1 name). by rewrite <- map_fmap. }
    apply NoDup_cons in Hsorted as [Hfl _]. apply Hfl.
    assert (Hgd : g ∈ d').
    { rewrite <- (sorted_by_mtime_perm d'), Hsort. by right. }
    by rewrite (same_name_same_entry d' f g Hnames' Hx Hgd Hname). }
  split; [exact Hin|].
  rewrite get_latest_run. unfold latest_lookup.
  assert (Hdir : files w' !! rin = Some (snapshots w' rin)).
  { unfold snapshots at 1. subst w'. rewrite save_rin_xml_spec. simpl.
    by rewrite lookup_insert_eq. }
  rewrite Hdir.
  destruct (Py.sorted_reverse name_le (glob_order (snapshots w' rin)))
    as [|x l] eqn:Hsort.
  { apply sorted_reverse_nil in Hsort.
    pose proof (glob_order_perm (snapshots w' rin)) as Hp.
    rewrite Hsort in Hp. apply Permutation_nil in Hp.
    rewrite Hp in Hin. by apply elem_of_nil in Hin. }
  destruct (sorted_reverse_head name_le name_le_total name_le_trans
              _ _ _ Hsort) as [Hx Hmax].
  rewrite glob_order_perm in Hx.
  assert (x = f) as ->; [|done].
  assert (Hle : name_le f x = true).
  { apply Hmax. by rewrite glob_order_perm. }
  rewrite Hsnap, sweep_as_filter in Hx.
  apply list_elem_of_filter in Hx as [_ Hx].
  subst d'. apply elem_of_app in Hx as [Hx|Hx].
  - destruct (Hnewest x Hx) as [Hgt _].
    apply string_ltb_not_leb in Hgt. unfold name_le in Hle. congruence.
  - by apply list_elem_of_singleton in Hx.
Qed.

End NextBaseline.

(** ** The content test *)

Lemma lower_str_app (a b : string) :
  Text.lower_str (a ++ b) = Text.lower_str a ++ Text.lower_str b.
Proof.
  induction a as [|c a IH]; [done|].
  rewrite string_app_cons. simpl. by rewrite IH.
Qed.

Lemma prefix_app (s t : string) : String.prefix s (s ++ t) = true.
Proof.
  induction s as [|c s IH]; [by destruct t|].
  rewrite string_app_cons. simpl. by destruct (ascii_dec c c).
Qed.

Lemma contains_here (needle s : string) :
  String.prefix needle s = true -> Text.contains needle s = true.
Proof. destruct s; simpl; by intros ->. Qed.

Lemma contains_app (needle a b : string) :
  Text.contains needle (a ++ needle ++ b) = true.
Proof.
  induction a as [|c a IH].
  - rewrite string_app_nil_l. apply contains_here, prefix_app.
  - rewrite string_app_cons. simpl. rewrite IH. apply orb_true_r.
Qed.

(** X18.  The content test rejects every response in which the words of the
    marker occur, at any place and in any letter case, however long the
    response is. *)
Theorem marker_is_rejected_anywhere (before marker after : string) :
  Text.lower_str marker = "not found" ->
  not_found (before ++ marker ++ after) = true.
Proof.
  intros Hm. unfold not_found.
  rewrite !lower_str_app, Hm, contains_app. done.
Qed.

(** ** The further properties on the example instance *)

Module MoreChecks.
Import Examples MoreExamples Checks.

Lemma available_agendas_characterized_witness :
  let env := env_with_links two_links in
  empty_world = empty_world
  /\ ["202510"; "202504"] <> []
  /\ StronglySorted string_gt ["202510"; "202504"]
  /\ forall p,
       p ∈ ["202510"; "202504"]
       <-> exists hrefs href,
             catalog env = CatalogPage hrefs /\ href ∈ hrefs
             /\ Py.search pubid_in_href href = Some p
             /\ well_formed_pubid p.
Proof.
  apply (available_agendas_characterized (env_with_links two_links)
           empty_world empty_world ["202510"; "202504"]).
  reflexivity.
Defined.

Lemma available_agendas_order_independent_witness :
  get_available_agendas (env_with_links two_links) empty_world
  = get_available_agendas (env_with_links two_links_swapped) empty_world.
Proof.
  apply (available_agendas_order_independent (env_with_links two_links)
           (env_with_links two_links_swapped) empty_world
           two_links two_links_swapped); [reflexivity..|].
  apply Permutation_swap.
Defined.

Lemma pubid_read_back_witness :
  Py.search pubid_in_name (snapshot_name rin "202504" "20240101_000000")
  = Some "202504".
Proof.
  apply (pubid_read_back rin "202504" "20240101_000000"); reflexivity.
Defined.

Lemma cleanup_leaves_count_witness :
  let r := cleanup_old_files first_pass rin (-1) three_files_world in
  r.1 = Return tt
  /\ snapshots r.2 rin `sublist_of` three_files
  /\ (forall f, f ∈ three_files ->
        f ∈ snapshots r.2 rin
        <-> (f ∉ files_to_delete (-1) three_files
             \/ unlink_fails first_pass (name f) = true))
  /\ (left_by_sweep (-1) (length three_files)
      <= length (snapshots r.2 rin))%nat
  /\ (unlink_succeeds first_pass ->
      length (snapshots r.2 rin) = left_by_sweep (-1) (length three_files))
  /\ forall other,
       other <> rin -> files r.2 !! other = files three_files_world !! other.
Proof.
  apply (cleanup_leaves_count first_pass rin (-1) three_files_world
           three_files).
  - reflexivity.
  - refine (bool_decide_unpack _ _). vm_compute. exact I.
Defined.

Lemma cleanup_keeps_most_recent_witness :
  st_mtime old_file <= st_mtime new_file.
Proof.
  apply (cleanup_keeps_most_recent first_pass rin 2 three_files_world
           three_files new_file old_file).
  - reflexivity.
  - refine (bool_decide_unpack _ _). vm_compute. exact I.
  - refine (bool_decide_unpack _ _). vm_compute. exact I.
  - reflexivity.
  - refine (bool_decide_unpack _ _). vm_compute. exact I.
  - refine (bool_decide_unpack _ _). vm_compute. exact I.
Defined.

Lemma at_most_keep_files_witness :
  let first := cycle_at "202504" "20240101_120000" 10 "v1" in
  let second := cycle_at "202504" "20240101_120000" 11 "v2" in
  let w := (save_each (monitor 2) rin ([first] ++ [second]) empty_world).2 in
  NoDup (map name (snapshots w rin))
  /\ (unlink_succeeds (at_env second) ->
      (length (snapshots w rin) <= 2)%nat).
Proof.
  apply (at_most_keep_files (monitor 2) rin
           [cycle_at "202504" "20240101_120000" 10 "v1"]
           (cycle_at "202504" "20240101_120000" 11 "v2") empty_world).
  - vm_compute. discriminate.
  - constructor.
Defined.

Lemma fetch_failure_ends_pass_witness :
  let r := monitor_rin (monitor 2) failed_fetch_pass rin baseline_world in
  r.1 = Return false
  /\ files r.2 = files baseline_world
  /\ output r.2
     = (output baseline_world
        ++ [Print (CheckingRIN rin); Print (LatestAgenda "202504");
            Print ErrorFetchingXML; Print FailedToFetchXML])%list.
Proof.
  apply (fetch_failure_ends_pass (monitor 2) failed_fetch_pass rin
           baseline_world "202504" []); reflexivity.
Defined.

Lemma same_content_is_no_change_witness :
  monitor_rin (monitor 2) repeat_pass rin baseline_world
  = (Return false,
     saved (monitor 2) repeat_pass rin "202504"
       (document "2024-01-01" "data v1")
       (say baseline_world
          [Print (CheckingRIN rin); Print (LatestAgenda "202504");
           Print NoChangesDetected])).
Proof.
  apply (same_content_is_no_change (monitor 2) repeat_pass rin baseline_world
           "202504" [] (document "2024-01-01" "data v1")
           (Some "202504") first_file); reflexivity.
Defined.

Lemma notifier_reports_delivery_witness :
  let r := send_email_notification monitor_with_credentials first_pass rin
             (Some "202504") "202510" "diff" "old.xml" "new.xml"
             empty_world in
  r.1 = Return true /\ files r.2 = files empty_world.
Proof.
  destruct (notifier_reports_delivery monitor_with_credentials first_pass rin
              (Some "202504") "202510" "diff" "old.xml" "new.xml"
              empty_world) as (Hfiles & _ & Hready).
  destruct (Hready eq_refl) as (delivered & Hr & Hiff).
  split; [|exact Hfiles]. rewrite Hr. f_equal. apply Hiff.
  eexists. split; [reflexivity|]. repeat split; eauto.
Defined.

(** With credentials and without the address of the recipient, the notifier
    ends with [KeyError], and so does a pass that reports a change. *)
Lemma missing_recipient_raises :
  (send_email_notification monitor_without_recipient first_pass rin
     (Some "202504") "202510" "diff" "old.xml" "new.xml" empty_world).1
  = Raise (KeyError "to_address")
  /\ (monitor_rin monitor_without_recipient third_pass rin baseline_world).1
     = Raise (KeyError "to_address").
Proof. vm_compute. split; reflexivity. Qed.

Lemma catalog_failure_stops_run_witness :
  exists e,
    monitor_each (monitor 2) (fun _ => unreachable_pass) 0 [rin; rin] 0
      baseline_world
    = (Raise (AttributeError "RINMonitor" "generate_default_pubids"),
       say baseline_world [Print (CheckingRIN rin); Print (CouldNotPing e)]).
Proof.
  apply (catalog_failure_stops_run (monitor 2) (fun _ => unreachable_pass)
           0 rin [rin] 0 baseline_world).
  reflexivity.
Defined.

Lemma run_counts_changes_witness :
  exists total w',
    monitor_each (monitor 2) (fun _ => third_pass) 0 [rin; rin] 0
      baseline_world
    = (Return total, w')
    /\ 0 <= total <= 0 + Z.of_nat (length [rin; rin]).
Proof.
  apply (run_counts_changes (monitor 2) (fun _ => third_pass) [rin; rin]).
  - reflexivity.
  - intros _. vm_compute. discriminate.
Defined.

Lemma main_without_identifiers_witness :
  main (Some default_config) (fun _ => first_pass) empty_world
  = (Return tt, say empty_world [Print Banner; Print NoRINsConfigured]).
Proof.
  apply (main_without_identifiers default_config (fun _ => first_pass)
           empty_world).
  right. reflexivity.
Defined.

Lemma baseline_pass_witness :
  monitor_rin (monitor 2) first_pass rin empty_world
  = (Return false,
     {| files := <[rin := [first_file]]> (files empty_world);
        output := (output empty_world
                   ++ [Print (CheckingRIN rin); Print (LatestAgenda "202504");
                       Print (SavingBaseline "202504")])%list |}).
Proof.
  apply (baseline_pass (monitor 2) first_pass rin empty_world "202504" []
           (document "2024-01-01" "data v1")); try reflexivity.
  vm_compute. discriminate.
Defined.

Lemma written_snapshot_is_latest_witness :
  let f := written second_pass rin "202504"
             (document "2024-02-01" "data v1") in
  let w' := (save_rin_xml (monitor 2) second_pass rin "202504"
               (document "2024-02-01" "data v1") baseline_world).2 in
  f ∈ snapshots w' rin
  /\ get_latest_file_for_rin rin w'
     = (Return (Py.search pubid_in_name (name f), Some f), w').
Proof.
  apply (written_snapshot_is_latest (monitor 2) second_pass rin "202504"
           (document "2024-02-01" "data v1") baseline_world).
  - vm_compute. discriminate.
  - refine (bool_decide_unpack _ _). vm_compute. exact I.
  - intros g Hg. apply list_elem_of_singleton in Hg as ->.
    split; reflexivity.
Defined.

Lemma marker_is_rejected_anywhere_witness :
  not_found ("<html><body>Rule " ++ "Not Found" ++ "</body></html>") = true.
Proof.
  apply (marker_is_rejected_anywhere "<html><body>Rule " "Not Found"
           "</body></html>").
  reflexivity.
Defined.

End MoreChecks.
